(** * Deep research assistant: a shallow embedding of the pipeline

    The program is a four-stage asynchronous pipeline
    (plan, parallel search, write, email) written against a hosted agent
    runtime.  The embedding keeps the program's own control flow and puts
    everything that lives outside the repository (the hosted model, the id
    generator of the tracing library, the mail provider, Python's [repr])
    behind one interface, [Collaborators].  Effects are explicit: a
    computation transforms the state of the collaborators, may raise, and
    produces the list of events it caused, in order.

    The file has three parts: the program, the vocabulary of its
    specification, and the facts and theorems about it.  *)

From Stdlib Require Import List String Ascii ZArith Arith Lia Bool.
From Stdlib Require Import Permutation DecimalString.
Import ListNotations.

Set Warnings "-register-all".
Local Open Scope string_scope.
Local Open Scope list_scope.

Infix "+++" := String.append (right associativity, at level 60).

(** ** Python values *)

(** Decoded values as the hosted model hands them back: the text of a
    plain answer is [VStr]; a structured answer is the decoded document. *)
Inductive PyVal : Type :=
| VNone
| VInt (z : Z)
| VStr (s : string)
| VList (l : list PyVal)
| VDict (d : list (string * PyVal)).

(** Instances of Python's [Exception], by class name and [str(e)]: the
    errors a call to the agent runtime raises (transport errors, errors
    of the runtime, answers that do not validate).  Signals that are not
    [Exception]s (interpreter exit, task cancellation) are no part of
    the model: nothing in the program cancels a task. *)
Record Exn : Type := { exn_class : string; exn_msg : string }.

Definition ModelBehaviorError (msg : string) : Exn :=
  {| exn_class := "ModelBehaviorError"; exn_msg := msg |}.
Definition AttributeError (msg : string) : Exn :=
  {| exn_class := "AttributeError"; exn_msg := msg |}.
Definition MaxTurnsExceeded (msg : string) : Exn :=
  {| exn_class := "MaxTurnsExceeded"; exn_msg := msg |}.

Definition Dict := list (string * string).

Definition str_nat (n : nat) : string := NilZero.string_of_uint (Nat.to_uint n).
Definition str_Z (z : Z) : string := NilZero.string_of_int (Z.to_int z).

(** The error the mail client raises for an answer that is not 2xx. *)
Definition HTTPError (status : Z) : Exn :=
  {| exn_class := "HTTPError"; exn_msg := "HTTP Error " +++ str_Z status |}.

Definition is_2xx (status : Z) : bool := ((200 <=? status) && (status <? 300))%Z.

Fixpoint lookup (k : string) (d : list (string * PyVal)) : option PyVal :=
  match d with
  | [] => None
  | (k', v) :: d' => if String.eqb k k' then Some v else lookup k d'
  end.

Fixpoint traverse {A B : Type} (f : A -> option B) (l : list A) : option (list B) :=
  match l with
  | [] => Some []
  | x :: l' =>
      match f x, traverse f l' with
      | Some y, Some ys => Some (y :: ys)
      | _, _ => None
      end
  end.

Definition as_str (v : PyVal) : option string :=
  match v with VStr s => Some s | _ => None end.

(** ** Schemas (planner_agent.py, writer_agent.py) *)

Record WebSearchItem : Type := { reason : string; query : string }.

Record WebSearchPlan : Type := { searches : list WebSearchItem }.

Record ReportData : Type := {
  short_summary : string;
  markdown_report : string;
  follow_up_questions : list string
}.

(** Structural validation of the three models: every declared field is
    required and must have the declared type; other keys are ignored. *)
Definition validate_WebSearchItem (v : PyVal) : option WebSearchItem :=
  match v with
  | VDict d =>
      match lookup "reason" d, lookup "query" d with
      | Some (VStr r), Some (VStr q) => Some {| reason := r; query := q |}
      | _, _ => None
      end
  | _ => None
  end.

Definition validate_WebSearchPlan (v : PyVal) : option WebSearchPlan :=
  match v with
  | VDict d =>
      match lookup "searches" d with
      | Some (VList l) =>
          match traverse validate_WebSearchItem l with
          | Some items => Some {| searches := items |}
          | None => None
          end
      | _ => None
      end
  | _ => None
  end.

Definition validate_ReportData (v : PyVal) : option ReportData :=
  match v with
  | VDict d =>
      match lookup "short_summary" d, lookup "markdown_report" d,
            lookup "follow_up_questions" d with
      | Some (VStr s), Some (VStr m), Some (VList qs) =>
          match traverse as_str qs with
          | Some fq =>
              Some {| short_summary := s; markdown_report := m;
                      follow_up_questions := fq |}
          | None => None
          end
      | _, _, _ => None
      end
  | _ => None
  end.

(** The documents that validate to a given model instance. *)
Definition dump_WebSearchItem (i : WebSearchItem) : PyVal :=
  VDict [("reason", VStr (reason i)); ("query", VStr (query i))].

Definition dump_WebSearchPlan (p : WebSearchPlan) : PyVal :=
  VDict [("searches", VList (map dump_WebSearchItem (searches p)))].

Definition dump_ReportData (r : ReportData) : PyVal :=
  VDict [("short_summary", VStr (short_summary r));
         ("markdown_report", VStr (markdown_report r));
         ("follow_up_questions", VList (map VStr (follow_up_questions r)))].

(** ** The agent runtime as the program sees it *)

Inductive Tool : Type :=
| WebSearchTool (search_context_size : string)
| FunctionTool (tool_name : string).

Inductive OutputType : Type := TWebSearchPlan | TReportData.

Record Agent : Type := {
  name : string;
  instructions : string;
  tools : list Tool;
  model : string;
  tool_choice : option string;
  output_type : option OutputType
}.

(** [final_output] of a run: the model's answer as it is for an agent
    without [output_type], a validated model instance otherwise. *)
Inductive PyObj : Type :=
| Plain (v : PyVal)
| Plan (p : WebSearchPlan)
| Report (r : ReportData).

Record RunResult : Type := { final_output : PyObj }.

(** What the runtime hands back to the model after a use of a function
    tool: what the tool returned, or, when the tool raised, a message
    with the text of its error. *)
Inductive ToolOutput : Type :=
| Returned (d : Dict)
| Errored (msg : string).

(** What the hosted model does with one request, turn by turn: answer,
    fail, or ask the runtime to run the [send_email] function tool and go
    on from what the runtime hands back. *)
Inductive Behaviour : Type :=
| Final (v : PyVal)
| Fail (e : Exn)
| ToolCall (tool : string) (subject html_body : string) (k : ToolOutput -> Behaviour).

Record Reply : Type := { behaviour : Behaviour; latency : nat }.

Record Mail : Type := {
  from_email : string;
  to_email : string;
  mail_subject : string;
  content_type : string;
  content_value : string
}.

Record Response : Type := { status_code : Z }.

Inductive Event : Type :=
| EPrint (s : string)
| EYield (chunk : string)
| ETraceStart (workflow trace_id : string)
| ETraceEnd (trace_id : string)
| ERunStart (agent : string) (input : string)
| ERunEnd (agent : string) (ok : bool)
| EPost (m : Mail) (r : Response)
| EPostFailed (m : Mail) (e : Exn).

(** Everything outside the repository.  [World] is the state of the
    outside; each call may change it, so none of the answers is assumed
    to be a function of the request alone.
    - [gen_trace_id]: the id generator of the tracing library;
    - [hosted]: what the hosted model makes of a request to an agent,
      and how long it takes;
    - [sg_post]: what becomes of a mail sent to the provider: the
      provider's response, or the transport error that kept it from
      answering;
    - [py_repr]: Python's [repr]. *)
Class Collaborators : Type := {
  World : Type;
  gen_trace_id : World -> string * World;
  hosted : Agent -> string -> World -> Reply * World;
  sg_post : Mail -> World -> (Response + Exn) * World;
  py_repr : PyVal -> string
}.

(** ** Computations *)

Inductive Res (A : Type) : Type :=
| Ok (a : A)
| Raised (e : Exn).
Arguments Ok {A} a.
Arguments Raised {A} e.

Definition is_ok {A : Type} (r : Res A) : bool :=
  match r with Ok _ => true | Raised _ => false end.

Section Monad.
Context `{Collaborators}.

Definition M (A : Type) : Type := World -> Res A * list Event * World.

Definition ret {A : Type} (a : A) : M A := fun w => (Ok a, [], w).

Definition raise {A : Type} (e : Exn) : M A := fun w => (Raised e, [], w).

Definition bind {A B : Type} (m : M A) (f : A -> M B) : M B :=
  fun w =>
    let '(r, ev, w1) := m w in
    match r with
    | Ok a => let '(r2, ev2, w2) := f a w1 in (r2, ev ++ ev2, w2)
    | Raised e => (Raised e, ev, w1)
    end.

Definition emit (e : Event) : M unit := fun w => (Ok tt, [e], w).

Definition print (s : string) : M unit := emit (EPrint s).

(** [yield] of an asynchronous generator that is consumed to its end. *)
Definition yield (chunk : string) : M unit := emit (EYield chunk).

Definition try_except {A : Type} (body : M A) (handler : Exn -> M A) : M A :=
  fun w =>
    let '(r, ev, w1) := body w in
    match r with
    | Ok a => (Ok a, ev, w1)
    | Raised e => let '(r2, ev2, w2) := handler e w1 in (r2, ev ++ ev2, w2)
    end.

(** [with trace(workflow, trace_id=...)]: the trace is closed on the
    way out, whether the body returned or raised. *)
Definition with_trace {A : Type} (workflow trace_id : string) (body : M A) : M A :=
  fun w =>
    let '(r, ev, w1) := body w in
    (r, ETraceStart workflow trace_id :: ev ++ [ETraceEnd trace_id], w1).

Definition fresh_trace_id : M string :=
  fun w => let '(t, w1) := gen_trace_id w in (Ok t, [], w1).

(** [sg.client.mail.send.post]: the client returns the response when
    its status is 2xx and raises otherwise, as it does when the provider
    cannot be reached. *)
Definition post (m : Mail) : M Response :=
  fun w =>
    match sg_post m w with
    | (inl r, w1) =>
        if is_2xx (status_code r) then (Ok r, [EPost m r], w1)
        else (Raised (HTTPError (status_code r)), [EPost m r], w1)
    | (inr e, w1) => (Raised e, [EPostFailed m e], w1)
    end.

End Monad.

Notation "x <- m ;; k" := (bind m (fun x => k))
  (at level 61, m at next level, right associativity).
Notation "m ;; k" := (bind m (fun _ => k))
  (at level 61, right associativity).

(** ** The agents *)

Definition nl : string := String "010"%char EmptyString.

Module PlannerAgent.
(** Number of search terms to generate for each query. *)
Definition HOW_MANY_SEARCHES : nat := 5.

Definition INSTRUCTIONS : string :=
  "You are a helpful research assistant. Given a query, come up with a set of web searches "
  +++ "to perform to best answer the query. Output " +++ str_nat HOW_MANY_SEARCHES
  +++ " terms to query for.".

Definition planner_agent : Agent :=
  {| name := "PlannerAgent";
     instructions := INSTRUCTIONS;
     tools := [];
     model := "gpt-4o-mini";
     tool_choice := None;
     output_type := Some TWebSearchPlan |}.
End PlannerAgent.

Module SearchAgent.
Definition INSTRUCTIONS : string :=
  "You are a research assistant. Given a search term, you search the web for that term and "
  +++ "produce a concise summary of the results. The summary must be 2–3 paragraphs and less than 300 "
  +++ "words. Capture only the main points. Write succinctly—no need for complete sentences or perfect grammar. "
  +++ "This will be consumed by someone synthesizing a report, so it is vital you capture the essence and ignore any fluff. "
  +++ "Do not include any commentary beyond the summary itself.".

Definition search_agent : Agent :=
  {| name := "SearchAgent";
     instructions := INSTRUCTIONS;
     tools := [WebSearchTool "low"];
     model := "gpt-4o-mini";
     tool_choice := Some "required";
     output_type := None |}.
End SearchAgent.

Module WriterAgent.
Definition INSTRUCTIONS : string :=
  "You are a senior researcher tasked with writing a cohesive report for a research query. "
  +++ "You will be provided with the original query, and some initial research done by a research assistant." +++ nl
  +++ "You should first come up with an outline for the report that describes the structure and "
  +++ "flow of the report. Then, generate the report and return that as your final output." +++ nl
  +++ "The final output should be in markdown format, and it should be lengthy and detailed. Aim "
  +++ "for 5-10 pages of content, at least 1000 words.".

Definition writer_agent : Agent :=
  {| name := "WriterAgent";
     instructions := INSTRUCTIONS;
     tools := [];
     model := "gpt-4o-mini";
     tool_choice := None;
     output_type := Some TReportData |}.
End WriterAgent.

Module EmailAgent.
Section Tool.
Context `{Collaborators}.

(** The function tool: one request to the mail provider; when the
    client returns, the status of the response is printed and then
    dropped. *)
Definition send_email (subject html_body : string) : M Dict :=
  let from_email := "ish.mishra03@gmail.com" in
  let to_email := "ish.mishra03@gmail.com" in
  let mail := {| from_email := from_email; to_email := to_email;
                 mail_subject := subject;
                 content_type := "text/html"; content_value := html_body |} in
  response <- post mail;;
  print ("Email response status:" +++ " " +++ str_Z (status_code response));;
  ret [("status", "success")].
End Tool.

Definition INSTRUCTIONS : string :=
  nl +++ "You are able to send a nicely formatted HTML email based on a detailed report." +++ nl
  +++ "You will be provided with a detailed report. You should use your tool to send one email," +++ nl
  +++ "providing the report converted into clean, well-presented HTML with an appropriate subject line." +++ nl.

Definition email_agent : Agent :=
  {| name := "EmailAgent";
     instructions := INSTRUCTIONS;
     tools := [FunctionTool "send_email"];
     model := "gpt-4o-mini";
     tool_choice := None;
     output_type := None |}.
End EmailAgent.

Import PlannerAgent SearchAgent WriterAgent EmailAgent.

(** ** Runner.run *)

Section Runner.
Context `{Collaborators}.

Definition has_function_tool (agent : Agent) (t : string) : bool :=
  existsb (fun x => match x with
                    | FunctionTool n => String.eqb n t
                    | WebSearchTool _ => false
                    end) (tools agent).

(** The runtime's default limit on the turns of one run; [Runner.run]
    is always called without [max_turns]. *)
Definition DEFAULT_MAX_TURNS : nat := 10.

(** A use of a function tool.  An error of the tool function does not
    leave the run: its text is handed back to the model. *)
Definition call_function_tool (t subject html_body : string) : M ToolOutput :=
  if String.eqb t "send_email" then
    try_except
      (d <- EmailAgent.send_email subject html_body;; ret (Returned d))
      (fun e =>
         ret (Errored ("An error occurred while running the tool. Please try again. Error: "
                       +++ exn_msg e)))
  else raise (ModelBehaviorError ("Tool " +++ t +++ " not found")).

(** The turns of one run: each answer or tool request of the model
    takes a turn; tool requests are served with the agent's own function
    tools until the model answers or fails, or the turns are used up. *)
Fixpoint converse (agent : Agent) (turns : nat) (b : Behaviour) : M PyVal :=
  match turns with
  | 0 => raise (MaxTurnsExceeded "Max turns exceeded")
  | S turns' =>
      match b with
      | Final v => ret v
      | Fail e => raise e
      | ToolCall t subject html_body k =>
          if has_function_tool agent t then
            out <- call_function_tool t subject html_body;;
            converse agent turns' (k out)
          else
            raise (ModelBehaviorError ("Tool " +++ t +++ " not found in agent " +++ name agent))
      end
  end.

(** The answer of an agent with an [output_type] is validated against
    that model; an answer that does not validate is an error of the run. *)
Definition structured (agent : Agent) (v : PyVal) : M PyObj :=
  match output_type agent with
  | None => ret (Plain v)
  | Some TWebSearchPlan =>
      match validate_WebSearchPlan v with
      | Some p => ret (Plan p)
      | None => raise (ModelBehaviorError "Invalid JSON when parsing for WebSearchPlan")
      end
  | Some TReportData =>
      match validate_ReportData v with
      | Some r => ret (Report r)
      | None => raise (ModelBehaviorError "Invalid JSON when parsing for ReportData")
      end
  end.

(** A run has a suspension point: the request goes out
    ([Runner_start]) and the caller resumes when the reply is in
    ([Runner_finish]). *)
Definition Runner_start (agent : Agent) (input : string) : M Reply :=
  fun w => let '(r, w1) := hosted agent input w in
           (Ok r, [ERunStart (name agent) input], w1).

Definition Runner_finish (agent : Agent) (reply : Reply) : M RunResult :=
  fun w =>
    let '(r, ev, w1) :=
      (v <- converse agent DEFAULT_MAX_TURNS (behaviour reply);;
       out <- structured agent v;;
       ret {| final_output := out |}) w in
    (r, ev ++ [ERunEnd (name agent) (is_ok r)], w1).

Definition Runner_run (agent : Agent) (input : string) : M RunResult :=
  reply <- Runner_start agent input;;
  Runner_finish agent reply.

(** [final_output_as(cls)] is a cast: nothing is checked. *)
Definition final_output_as (result : RunResult) (cls : OutputType) : PyObj :=
  final_output result.
End Runner.

(** ** research_manager.py *)

Module ResearchManager.
Section Manager.
Context `{Collaborators}.

(** [str(x)]: a [str] is itself; anything else goes through [repr]. *)
Definition py_str (o : PyObj) : string :=
  match o with
  | Plain (VStr s) => s
  | Plain v => py_repr v
  | Plan p => py_repr (dump_WebSearchPlan p)
  | Report r => py_repr (dump_ReportData r)
  end.

(** Attribute access on a value whose class is only known at run time. *)
Definition getattr_searches (o : PyObj) : M (list WebSearchItem) :=
  match o with
  | Plan p => ret (searches p)
  | _ => raise (AttributeError "object has no attribute 'searches'")
  end.

Definition getattr_markdown_report (o : PyObj) : M string :=
  match o with
  | Report r => ret (markdown_report r)
  | _ => raise (AttributeError "object has no attribute 'markdown_report'")
  end.

Definition plan_searches (query : string) : M PyObj :=
  print "Planning searches...";;
  result <- Runner_run planner_agent ("Query: " +++ query);;
  items <- getattr_searches (final_output result);;
  print ("Will perform " +++ str_nat (List.length items) +++ " searches");;
  ret (final_output_as result TWebSearchPlan).

(** A search task between its request and its resumption. *)
Record Task : Type := { task_item : WebSearchItem; task_reply : Reply }.

(** [search] up to its suspension point: the request is out. *)
Definition search_begin (item : WebSearchItem) : M Task :=
  let input_data :=
    "Search term: " +++ query item +++ nl +++ "Reason for searching: " +++ reason item in
  reply <- Runner_start search_agent input_data;;
  ret {| task_item := item; task_reply := reply |}.

(** [search] from its resumption on: the result, or the handler. *)
Definition search_resume (t : Task) : M (option string) :=
  try_except
    (result <- Runner_finish search_agent (task_reply t);;
     ret (Some (py_str (final_output result))))
    (fun e =>
       print ("Search failed for term '" +++ query (task_item t) +++ "': " +++ exn_msg e);;
       ret None).

Definition search (item : WebSearchItem) : M (option string) :=
  t <- search_begin item;;
  search_resume t.

(** [asyncio.create_task] for every item, in the order of the plan. *)
Fixpoint create_tasks (items : list WebSearchItem) : M (list Task) :=
  match items with
  | [] => ret []
  | item :: rest =>
      t <- search_begin item;;
      ts <- create_tasks rest;;
      ret (t :: ts)
  end.

(** [asyncio.as_completed]: the tasks in the order in which their
    replies arrive; of two replies with the same latency the one
    requested first comes first. *)
Fixpoint arrive (t : Task) (queue : list Task) : list Task :=
  match queue with
  | [] => [t]
  | u :: rest =>
      if Nat.leb (latency (task_reply t)) (latency (task_reply u))
      then t :: queue
      else u :: arrive t rest
  end.

Definition as_completed (tasks : list Task) : list Task :=
  fold_right arrive [] tasks.

(** The body of the [for] loop, over the tasks still to come. *)
Fixpoint collect (total : nat) (pending : list Task)
  (results : list string) (num_completed : nat) : M (list string) :=
  match pending with
  | [] => ret results
  | task :: rest =>
      result <- search_resume task;;
      let results :=
        match result with
        | Some r => results ++ [r]
        | None => results
        end in
      let num_completed := num_completed + 1 in
      print ("Searching... " +++ str_nat num_completed +++ "/" +++ str_nat total +++ " completed");;
      collect total rest results num_completed
  end.

Definition perform_searches (search_plan : PyObj) : M (list string) :=
  print "Searching...";;
  items <- getattr_searches search_plan;;
  tasks <- create_tasks items;;
  results <- collect (List.length tasks) (as_completed tasks) [] 0;;
  print "Finished searching";;
  ret results.

Definition write_report (query : string) (search_results : list string) : M PyObj :=
  print "Thinking about report...";;
  let input_data :=
    "Original query: " +++ query +++ nl +++ "Summarized search results: "
    +++ py_repr (VList (map VStr search_results)) in
  result <- Runner_run writer_agent input_data;;
  print "Finished writing report";;
  ret (final_output_as result TReportData).

Definition send_email (report : PyObj) : M unit :=
  print "Writing email...";;
  md <- getattr_markdown_report report;;
  Runner_run email_agent md;;
  print "Email sent".

Definition trace_url : string :=
  "View trace: https://platform.openai.com/traces/trace?trace_id=".

Definition run (query : string) : M unit :=
  trace_id <- fresh_trace_id;;
  with_trace "Research trace" trace_id
    (print (trace_url +++ trace_id);;
     yield (trace_url +++ trace_id);;
     print "Starting research...";;
     search_plan <- plan_searches query;;
     yield "Searches planned, starting to search...";;
     search_results <- perform_searches search_plan;;
     yield "Searches complete, writing report...";;
     report <- write_report query search_results;;
     yield "Report written, sending email...";;
     send_email report;;
     yield "Email sent, research complete";;
     md <- getattr_markdown_report report;;
     yield md).

End Manager.
End ResearchManager.

Import ResearchManager.

(** * The vocabulary of the specification

    Observations on the events of a computation, and the parts of the
    program's behaviour the claims speak about.  None of it changes what
    the program does; the lemmas of the next part relate each of these
    to the code above. *)

Section Vocabulary.
Context `{Collaborators}.

Definition chunks (ev : list Event) : list string :=
  flat_map (fun e => match e with EYield c => [c] | _ => [] end) ev.

(** A progress tick of the dispatcher: a printed line that starts with
    the running counter's prefix. *)
Definition is_tick (e : Event) : bool :=
  match e with
  | EPrint s => String.prefix "Searching... " s
  | _ => false
  end.

Definition ticks (ev : list Event) : list Event := filter is_tick ev.

Definition progress (num_completed total : nat) : string :=
  "Searching... " +++ str_nat num_completed +++ "/" +++ str_nat total +++ " completed".

Definition is_start_of (agent : Agent) (e : Event) : bool :=
  match e with
  | ERunStart a _ => String.eqb a (name agent)
  | _ => false
  end.

Definition is_end_of (agent : Agent) (e : Event) : bool :=
  match e with
  | ERunEnd a _ => String.eqb a (name agent)
  | _ => false
  end.

(** How often an agent was invoked, and how many of its runs are over. *)
Definition started (agent : Agent) (ev : list Event) : nat :=
  List.length (filter (is_start_of agent) ev).

Definition resolved (agent : Agent) (ev : list Event) : nat :=
  List.length (filter (is_end_of agent) ev).

Definition search_input (item : WebSearchItem) : string :=
  "Search term: " +++ query item +++ nl +++ "Reason for searching: " +++ reason item.

(** What one search unit comes to, read off the reply alone. *)
Definition verdict (b : Behaviour) : Res string :=
  match b with
  | Final v => Ok (py_str (Plain v))
  | Fail e => Raised e
  | ToolCall t _ _ _ =>
      Raised (ModelBehaviorError ("Tool " +++ t +++ " not found in agent " +++ name search_agent))
  end.

Definition outcome (t : Task) : option string :=
  match verdict (behaviour (task_reply t)) with
  | Ok s => Some s
  | Raised _ => None
  end.

Definition failed (t : Task) : bool :=
  match outcome t with Some _ => false | None => true end.

Definition successes (ts : list Task) : list string :=
  flat_map (fun t => match outcome t with Some s => [s] | None => [] end) ts.

Definition failures (ts : list Task) : nat := List.length (filter failed ts).

Definition resume_events (t : Task) : list Event :=
  match verdict (behaviour (task_reply t)) with
  | Ok _ => [ERunEnd (name search_agent) true]
  | Raised e =>
      [ERunEnd (name search_agent) false;
       EPrint ("Search failed for term '" +++ query (task_item t) +++ "': " +++ exn_msg e)]
  end.

Fixpoint loop_events (total num_completed : nat) (pending : list Task) : list Event :=
  match pending with
  | [] => []
  | t :: rest =>
      resume_events t ++ EPrint (progress (num_completed + 1) total)
        :: loop_events total (num_completed + 1) rest
  end.

(** The tasks of a dispatch: the replies the outside gives to the
    requests of the plan, issued in the order of the plan. *)
Definition dispatched (items : list WebSearchItem) (w : World) : list Task :=
  match create_tasks items w with
  | (Ok ts, _, _) => ts
  | (Raised _, _, _) => []
  end.

Definition after_dispatch (items : list WebSearchItem) (w : World) : World :=
  snd (create_tasks items w).

Definition start_events (items : list WebSearchItem) : list Event :=
  map (fun i => ERunStart (name search_agent) (search_input i)) items.

(** Of the events of a computation the timeline keeps which agent was
    started, which run of an agent is over, and which chunk was yielded,
    in order. *)
Inductive Mark : Type :=
| Started (agent : string)
| Ended (agent : string)
| Yielded (chunk : string).

Definition mark (e : Event) : list Mark :=
  match e with
  | ERunStart a _ => [Started a]
  | ERunEnd a _ => [Ended a]
  | EYield c => [Yielded c]
  | _ => []
  end.

Definition timeline (ev : list Event) : list Mark := flat_map mark ev.

Definition result {A W : Type} (x : Res A * list Event * W) : Res A := fst (fst x).
Definition events {A W : Type} (x : Res A * list Event * W) : list Event := snd (fst x).
Definition final {A W : Type} (x : Res A * list Event * W) : W := snd x.

Definition is_started (a : Agent) (m : Mark) : bool :=
  match m with Started n => String.eqb n (name a) | _ => false end.

Definition is_ended (a : Agent) (m : Mark) : bool :=
  match m with Ended n => String.eqb n (name a) | _ => false end.

Definition yielded (m : Mark) : list string :=
  match m with Yielded c => [c] | _ => [] end.

Definition writer_input (query : string) (search_results : list string) : string :=
  "Original query: " +++ query +++ nl +++ "Summarized search results: "
  +++ py_repr (VList (map VStr search_results)).

(** The part of [run] that follows the Write stage. *)
Definition after_write (report : PyObj) : M unit :=
  yield "Report written, sending email...";;
  send_email report;;
  yield "Email sent, research complete";;
  md <- getattr_markdown_report report;;
  yield md.

Definition head_events (tid : string) : list Event :=
  [ETraceStart "Research trace" tid; EPrint (trace_url +++ tid);
   EYield (trace_url +++ tid); EPrint "Starting research..."].

Definition SP : Mark := Started (name planner_agent).
Definition EP : Mark := Ended (name planner_agent).
Definition SS : Mark := Started (name search_agent).
Definition ES : Mark := Ended (name search_agent).
Definition SW : Mark := Started (name writer_agent).
Definition EW : Mark := Ended (name writer_agent).
Definition SE : Mark := Started (name email_agent).
Definition EE : Mark := Ended (name email_agent).

Definition through_search (tid : string) (N : nat) : list Mark :=
  [Yielded (trace_url +++ tid); SP; EP; Yielded "Searches planned, starting to search..."]
  ++ repeat SS N ++ repeat ES N.


(** The replies of the outside to the requests of a plan: one request
    to the search agent per item, in the order of the plan. *)
Fixpoint asked (items : list WebSearchItem) (w : World) : list Task :=
  match items with
  | [] => []
  | item :: rest =>
      let '(reply, w1) := hosted search_agent (search_input item) w in
      {| task_item := item; task_reply := reply |} :: asked rest w1
  end.

(** Deterministic stubs: what the hosted model and the mail provider
    answer is a function of the request, whatever was served before. *)
Definition stubbed : Prop :=
  (forall a i w w', fst (hosted a i w) = fst (hosted a i w'))
  /\ (forall m w w', fst (sg_post m w) = fst (sg_post m w')).

(** A computation whose result and events do not depend on the state
    of the outside. *)
Definition det {A : Type} (m : M A) : Prop := forall w w', fst (m w) = fst (m w').

(** [run] after its first chunk. *)
Definition pipeline (q : string) : M unit :=
  print "Starting research...";;
  search_plan <- plan_searches q;;
  yield "Searches planned, starting to search...";;
  search_results <- perform_searches search_plan;;
  yield "Searches complete, writing report...";;
  report <- write_report q search_results;;
  yield "Report written, sending email...";;
  send_email report;;
  yield "Email sent, research complete";;
  md <- getattr_markdown_report report;;
  yield md.

End Vocabulary.

(** ** Stubbed collaborators

    A family of concrete collaborators for running the pipeline: the
    outside counts the calls it has served, and the n-th trace id, reply
    and provider status are given by tables. *)

Record StubWorld : Type := { trace_count : nat; run_count : nat; post_count : nat }.

Definition quoted (v : PyVal) : string :=
  match v with
  | VStr s => "'" +++ s +++ "'"
  | _ => "?"
  end.

Definition stub_repr (v : PyVal) : string :=
  match v with
  | VList l => "[" +++ String.concat ", " (map quoted l) +++ "]"
  | _ => quoted v
  end.

Definition stub (ids : nat -> string) (replies : nat -> Agent -> string -> Reply)
  (statuses : nat -> Z) : Collaborators :=
  {| World := StubWorld;
     gen_trace_id := fun w =>
       (ids (trace_count w),
        {| trace_count := S (trace_count w); run_count := run_count w;
           post_count := post_count w |});
     hosted := fun a input w =>
       (replies (run_count w) a input,
        {| trace_count := trace_count w; run_count := S (run_count w);
           post_count := post_count w |});
     sg_post := fun m w =>
       (inl {| status_code := statuses (post_count w) |},
        {| trace_count := trace_count w; run_count := run_count w;
           post_count := S (post_count w) |});
     py_repr := stub_repr |}.

Definition boot : StubWorld := {| trace_count := 0; run_count := 0; post_count := 0 |}.

Module Scenario.

Definition the_query : string := "Impact of AI on Healthcare".

Definition item (n : nat) : WebSearchItem :=
  {| reason := "angle " +++ str_nat n; query := "AI healthcare topic " +++ str_nat n |}.

Definition the_plan : WebSearchPlan := {| searches := map item (seq 1 5) |}.

Definition the_report : ReportData :=
  {| short_summary := "AI changes diagnosis and triage.";
     markdown_report := "# Impact of AI on Healthcare";
     follow_up_questions := ["What about regulation?"] |}.

Definition timeout : Exn := {| exn_class := "APITimeoutError"; exn_msg := "Request timed out." |}.

(** The planner answers with five items; the search for the third one
    times out, the others are summarised, and replies arrive out of
    order; the writer answers with a report; the mailer uses its tool
    once.  Answers depend on the request only, latencies on the moment. *)
Definition replies_with (writer_answer : PyVal) (n : nat) (a : Agent) (input : string) : Reply :=
  if String.eqb (name a) "PlannerAgent" then
    {| behaviour := Final (dump_WebSearchPlan the_plan); latency := 0 |}
  else if String.eqb (name a) "SearchAgent" then
    {| behaviour :=
         if String.eqb input (search_input (item 3)) then Fail timeout
         else Final (VStr ("Notes. " +++ input));
       latency := (n * 3) mod 7 |}
  else if String.eqb (name a) "WriterAgent" then
    {| behaviour := Final writer_answer; latency := 0 |}
  else
    {| behaviour :=
         ToolCall "send_email" "Research report" "<h1>Impact of AI on Healthcare</h1>"
           (fun _ => Final (VStr "The email has been sent."));
       latency := 0 |}.

Definition replies : nat -> Agent -> string -> Reply :=
  replies_with (dump_ReportData the_report).

(** A writer's answer without the [markdown_report] field. *)
Definition truncated_answer : PyVal :=
  VDict [("short_summary", VStr "AI changes diagnosis and triage.");
         ("follow_up_questions", VList [VStr "What about regulation?"])].

Definition ids (n : nat) : string := "trace_" +++ str_nat n.

(** The provider rejects every mail. *)
Definition statuses (n : nat) : Z := 500%Z.

Definition world : Collaborators := stub ids replies statuses.

Definition broken_world : Collaborators :=
  stub ids (replies_with truncated_answer) statuses.

(** The same answers at every moment: nothing but the trace id depends
    on how many calls were served before. *)
Definition steady_world : Collaborators := stub ids (fun _ => replies 0) statuses.

End Scenario.

(** ** Further vocabulary: mail, log lines, order of arrival *)

Section MoreVocabulary.
Context `{Collaborators}.

Definition is_post (e : Event) : bool :=
  match e with EPost _ _ => true | _ => false end.

(** The requests made to the mail provider. *)
Definition posts (ev : list Event) : list Event := filter is_post ev.

(** The lines printed, in order. *)
Definition printed (ev : list Event) : list string :=
  flat_map (fun e => match e with EPrint s => [s] | _ => [] end) ev.

Definition is_failure_line (s : string) : bool :=
  String.prefix "Search failed for term '" s.

(** The line a search unit prints when its run raises. *)
Definition failure_line (t : Task) : list string :=
  match verdict (behaviour (task_reply t)) with
  | Ok _ => []
  | Raised e => ["Search failed for term '" +++ query (task_item t) +++ "': " +++ exn_msg e]
  end.

(** Each reply arrives no later than the next one. *)
Fixpoint arrives_in_order (ts : list Task) : bool :=
  match ts with
  | [] => true
  | t :: rest =>
      match rest with
      | [] => true
      | u :: _ =>
          Nat.leb (latency (task_reply t)) (latency (task_reply u)) && arrives_in_order rest
      end
  end.

(** An agent without function tools. *)
Definition toolless (a : Agent) : Prop := forall t, has_function_tool a t = false.

End MoreVocabulary.

(** Variations on the scenario. *)
Module Variants.

Definition except_for (agent : string) (b : Behaviour) (n : nat) (a : Agent)
  (input : string) : Reply :=
  if String.eqb (name a) agent then {| behaviour := b; latency := 0 |}
  else Scenario.replies n a input.



(** The mailer's model fails. *)
Definition failing_mailer_world : Collaborators :=
  stub Scenario.ids (except_for "EmailAgent" (Fail Scenario.timeout)) Scenario.statuses.

(** Every search times out. *)
Definition all_fail_world : Collaborators :=
  stub Scenario.ids (except_for "SearchAgent" (Fail Scenario.timeout)) Scenario.statuses.

Definition short_plan : WebSearchPlan :=
  {| searches := [Scenario.item 1; Scenario.item 2] |}.

End Variants.

(** * Facts and theorems *)

(** ** Sequencing *)

Section MonadFacts.
Context `{Collaborators}.

Lemma bind_ok {A B : Type} (m : M A) (f : A -> M B) (w w1 w2 : World)
  (a : A) (r : Res B) (ev ev2 : list Event) :
  m w = (Ok a, ev, w1) -> f a w1 = (r, ev2, w2) ->
  bind m f w = (r, ev ++ ev2, w2).
Proof. intros E1 E2. unfold bind. now rewrite E1, E2. Qed.

Lemma bind_raised {A B : Type} (m : M A) (f : A -> M B) (w w1 : World)
  (e : Exn) (ev : list Event) :
  m w = (Raised e, ev, w1) -> bind m f w = (Raised e, ev, w1).
Proof. intros E1. unfold bind. now rewrite E1. Qed.

End MonadFacts.

(** ** The search units, one by one *)

Section Dispatch.
Context `{Collaborators}.

Lemma search_resume_eq (t : Task) (w : World) :
  search_resume t w = (Ok (outcome t), resume_events t, w).
Proof.
  unfold search_resume, try_except, bind, Runner_finish, outcome, resume_events, verdict.
  destruct (behaviour (task_reply t)) as [v | e | tl sj hb k]; reflexivity.
Qed.

(** A unit counts as failed exactly when its run of the search agent
    raises. *)
Lemma failed_raises (t : Task) (w : World) :
  failed t = negb (is_ok (result (Runner_finish search_agent (task_reply t) w))).
Proof.
  unfold failed, outcome, verdict, Runner_finish, bind, result.
  destruct (behaviour (task_reply t)) as [v | e | tl sj hb k]; reflexivity.
Qed.

Lemma collect_eq (total : nat) (pending : list Task) :
  forall (results : list string) (n : nat) (w : World),
    collect total pending results n w
    = (Ok (results ++ successes pending), loop_events total n pending, w).
Proof.
  induction pending as [| t rest IH]; intros results n w.
  - cbn. now rewrite app_nil_r.
  - cbn [collect]. unfold bind at 1. rewrite search_resume_eq.
    unfold bind at 1. unfold print at 1, emit at 1. rewrite IH.
    cbn [loop_events successes flat_map]. fold (successes rest).
    destruct (outcome t); cbn [app]; now rewrite <- ?app_assoc.
Qed.

Lemma create_tasks_ok (items : list WebSearchItem) :
  forall w : World, exists ts w',
    create_tasks items w
    = (Ok ts, map (fun i => ERunStart (name search_agent) (search_input i)) items, w')
    /\ map task_item ts = items.
Proof.
  induction items as [| i rest IH]; intros w.
  - exists [], w. cbn. auto.
  - cbn [create_tasks]. unfold bind at 1, search_begin at 1, bind at 1, Runner_start at 1.
    fold (search_input i).
    destruct (hosted search_agent (search_input i) w) as [r w1] eqn:E.
    cbn [ret]. unfold bind at 1.
    destruct (IH w1) as (ts & w' & IH1 & IH2). rewrite IH1.
    exists ({| task_item := i; task_reply := r |} :: ts), w'.
    split; [| cbn; now rewrite IH2].
    unfold ret. cbn [app map]. now rewrite app_nil_r.
Qed.

Lemma create_tasks_eq (items : list WebSearchItem) (w : World) :
  create_tasks items w
  = (Ok (dispatched items w),
     map (fun i => ERunStart (name search_agent) (search_input i)) items,
     after_dispatch items w).
Proof.
  unfold dispatched, after_dispatch.
  destruct (create_tasks_ok items w) as (ts & w' & E & _). now rewrite E.
Qed.

Lemma dispatched_items (items : list WebSearchItem) (w : World) :
  map task_item (dispatched items w) = items.
Proof.
  unfold dispatched.
  destruct (create_tasks_ok items w) as (ts & w' & E & E'). now rewrite E.
Qed.

Lemma dispatched_length (items : list WebSearchItem) (w : World) :
  List.length (dispatched items w) = List.length items.
Proof.
  rewrite <- (dispatched_items items w) at 2. now rewrite length_map.
Qed.

End Dispatch.

(** ** The dispatcher: what [perform_searches] returns and emits *)

Section DispatchFacts.
Context `{Collaborators}.

Lemma arrive_perm (t : Task) (queue : list Task) :
  Permutation (arrive t queue) (t :: queue).
Proof.
  induction queue as [| u rest IH]; cbn.
  - apply Permutation_refl.
  - destruct (Nat.leb _ _).
    + apply Permutation_refl.
    + eapply perm_trans; [apply perm_skip, IH | apply perm_swap].
Qed.

Lemma as_completed_perm (tasks : list Task) :
  Permutation (as_completed tasks) tasks.
Proof.
  induction tasks as [| t rest IH]; cbn.
  - apply perm_nil.
  - eapply perm_trans; [apply arrive_perm | now apply perm_skip].
Qed.

Lemma as_completed_length (tasks : list Task) :
  List.length (as_completed tasks) = List.length tasks.
Proof. apply Permutation_length, as_completed_perm. Qed.

Lemma successes_perm (ts us : list Task) :
  Permutation ts us -> Permutation (successes ts) (successes us).
Proof. intros P. unfold successes. now rewrite P. Qed.

Lemma failures_perm (ts us : list Task) :
  Permutation ts us -> failures ts = failures us.
Proof.
  intros P. unfold failures. induction P; cbn.
  - reflexivity.
  - destruct (failed x); cbn; lia.
  - destruct (failed x), (failed y); cbn; lia.
  - lia.
Qed.

Lemma successes_failures (ts : list Task) :
  List.length (successes ts) + failures ts = List.length ts.
Proof.
  unfold successes, failures, failed.
  induction ts as [| t rest IH]; cbn; [reflexivity |].
  destruct (outcome t); cbn; lia.
Qed.

(** The successful summaries depend on the outcomes only. *)
Lemma successes_outcomes (ts us : list Task) :
  map outcome ts = map outcome us -> successes ts = successes us.
Proof.
  unfold successes. revert us.
  induction ts as [| t rest IH]; intros [| u us'] E; cbn in *; try discriminate.
  - reflexivity.
  - injection E as E1 E2. rewrite E1. f_equal. now apply IH.
Qed.

Lemma prefix_append (s t : string) : String.prefix s (s +++ t) = true.
Proof.
  induction s as [| a s IH]; cbn.
  - now destruct t.
  - destruct (ascii_dec a a); [exact IH | congruence].
Qed.

Lemma progress_is_tick (i total : nat) : is_tick (EPrint (progress i total)) = true.
Proof. apply prefix_append. Qed.

Lemma ticks_resume (t : Task) : ticks (resume_events t) = [].
Proof.
  unfold resume_events. destruct (verdict (behaviour (task_reply t))); reflexivity.
Qed.

Lemma ticks_loop (total : nat) (pending : list Task) :
  forall n : nat,
    ticks (loop_events total n pending)
    = map (fun i => EPrint (progress i total)) (seq (n + 1) (List.length pending)).
Proof.
  unfold ticks.
  induction pending as [| t rest IH]; intros n; cbn [loop_events List.length seq map].
  - reflexivity.
  - rewrite filter_app. fold (ticks (resume_events t)). rewrite ticks_resume.
    cbn [app filter]. rewrite progress_is_tick, IH. cbn [map]. now replace (n + 1 + 1) with (S (n + 1)) by lia.
Qed.


Lemma ends_loop (total : nat) (pending : list Task) :
  forall n : nat,
    resolved search_agent (loop_events total n pending) = List.length pending.
Proof.
  unfold resolved.
  induction pending as [| t rest IH]; intros n; cbn [loop_events List.length].
  - reflexivity.
  - rewrite filter_app, length_app. cbn [filter is_end_of]. rewrite IH.
    unfold resume_events. destruct (verdict _); reflexivity.
Qed.

(** [perform_searches] in one equation: it never raises on a plan, its
    result is the successful summaries in order of arrival, and its
    events are the requests, then one resumption and one tick per task. *)
Lemma perform_searches_eq (p : WebSearchPlan) (w : World) :
  let ts := dispatched (searches p) w in
  perform_searches (Plan p) w
  = (Ok (successes (as_completed ts)),
     EPrint "Searching..." :: start_events (searches p)
       ++ loop_events (List.length ts) 0 (as_completed ts)
       ++ [EPrint "Finished searching"],
     after_dispatch (searches p) w).
Proof.
  intros ts. unfold perform_searches.
  erewrite bind_ok; [| reflexivity |].
  2: { erewrite bind_ok; [| reflexivity |].
       2: { erewrite bind_ok; [| apply create_tasks_eq |].
            2: { erewrite bind_ok; [| apply collect_eq |].
                 2: { erewrite bind_ok; reflexivity. }
                 reflexivity. }
            reflexivity. }
       reflexivity. }
  reflexivity.
Qed.

End DispatchFacts.

(** ** Theorems on the dispatcher *)

Section DispatchTheorems.
Context `{Collaborators}.

Lemma ticks_starts (items : list WebSearchItem) : ticks (start_events items) = [].
Proof. induction items as [| i rest IH]; [reflexivity | exact IH]. Qed.


Lemma resolved_starts (a : Agent) (items : list WebSearchItem) :
  resolved a (start_events items) = 0.
Proof. unfold resolved. induction items as [| i rest IH]; [reflexivity | exact IH]. Qed.



(** The tasks [perform_searches] creates carry the replies of the
    outside to its requests: one request per item, with the item's search
    term and reason, in the order of the plan. *)
Lemma dispatched_asked (items : list WebSearchItem) :
  forall w : World, dispatched items w = asked items w.
Proof.
  induction items as [| i rest IH]; intros w; [reflexivity |].
  unfold dispatched. cbn [create_tasks asked].
  unfold bind at 1, search_begin at 1, bind at 1, Runner_start at 1.
  fold (search_input i).
  destruct (hosted search_agent (search_input i) w) as [r w1].
  cbn [ret]. unfold bind at 1. specialize (IH w1). unfold dispatched in IH.
  destruct (create_tasks_ok rest w1) as (ts & w' & E & _). rewrite E in *.
  cbn. now rewrite IH.
Qed.

(** C1: on a plan of N items, let the replies be what the outside
    answers to the N requests, and k the number of those on which the run
    of the search agent raises.  [perform_searches] returns N - k result
    strings, the successful summaries of these replies in some order, and
    prints N progress ticks, the running counter going from 1/N to N/N;
    the results never outnumber the items. *)
Theorem C1_dispatch_counts (p : WebSearchPlan) (w : World) :
  let N := List.length (searches p) in
  let replies := asked (searches p) w in
  let k := failures replies in
  exists results ev w',
    perform_searches (Plan p) w = (Ok results, ev, w')
    /\ k <= N
    /\ List.length results = N - k
    /\ Permutation results (successes replies)
    /\ ticks ev = map (fun i => EPrint (progress i N)) (seq 1 N)
    /\ List.length (ticks ev) = N
    /\ List.length results <= N
    /\ forall t w0,
         failed t = negb (is_ok (result (Runner_finish search_agent (task_reply t) w0))).
Proof.
  intros N replies k. unfold k, replies. clear k replies.
  rewrite <- (dispatched_asked (searches p) w).
  pose proof (perform_searches_eq p w) as E. cbv zeta in E.
  set (ts := dispatched (searches p) w) in *.
  set (k := failures ts).
  assert (LN : List.length ts = N) by apply dispatched_length.
  assert (S : List.length (successes (as_completed ts)) + k = N).
  { rewrite (Permutation_length (successes_perm _ _ (as_completed_perm ts))).
    rewrite <- LN. apply successes_failures. }
  assert (T : ticks (EPrint "Searching..." :: start_events (searches p)
                       ++ loop_events (List.length ts) 0 (as_completed ts)
                       ++ [EPrint "Finished searching"])
              = map (fun i => EPrint (progress i N)) (seq 1 N)).
  { unfold ticks. cbn [filter is_tick]. change (String.prefix _ "Searching...") with false.
    cbv iota. rewrite !filter_app. fold (ticks (start_events (searches p))).
    rewrite ticks_starts. cbn [app filter is_tick].
    change (String.prefix _ "Finished searching") with false. cbv iota.
    rewrite app_nil_r. fold (ticks (loop_events (List.length ts) 0 (as_completed ts))).
    rewrite ticks_loop, as_completed_length, LN. reflexivity. }
  eexists _, _, _. split; [exact E |].
  rewrite T, length_map, length_seq.
  split; [lia |]. split; [lia |].
  split; [apply successes_perm, as_completed_perm |].
  repeat split; try lia. intros t w0. apply failed_raises.
Qed.

(** C5: when the external call of one search raises, [search] prints the
    failure and returns None; a dispatch therefore always returns, with
    the summary of every unit that did succeed. *)
Theorem C5_search_absorbs_failure (item : WebSearchItem) (w w1 : World)
  (e : Exn) (ev : list Event) :
  Runner_run search_agent (search_input item) w = (Raised e, ev, w1) ->
  search item w
  = (Ok None,
     ev ++ [EPrint ("Search failed for term '" +++ query item +++ "': " +++ exn_msg e)],
     w1)
  /\ forall (p : WebSearchPlan) (w0 : World), exists results ev0 w0',
       perform_searches (Plan p) w0 = (Ok results, ev0, w0')
       /\ forall t s, In t (dispatched (searches p) w0) -> outcome t = Some s ->
                      In s results.
Proof.
  intros R. split.
  - revert R. unfold search, search_begin, Runner_run, search_resume, try_except.
    unfold search_input, bind, Runner_start.
    destruct (hosted search_agent _ w) as [reply w'].
    cbn [ret task_reply task_item app].
    destruct (Runner_finish search_agent reply w') as [[r ev'] w''].
    destruct r as [a | e']; [discriminate |].
    intros [= -> <- ->]. reflexivity.
  - intros p w0. eexists _, _, _. split; [apply perform_searches_eq |].
    intros t s I O. unfold successes. apply in_flat_map. exists t. split.
    + eapply Permutation_in; [apply Permutation_sym, as_completed_perm | exact I].
    + rewrite O. now left.
Qed.

(** C7: two assignments of latencies that leave the outcome of every
    item as it was give the same successful summaries, up to order. *)
Theorem C7_dispatch_order_independent (p : WebSearchPlan) (w1 w2 : World) :
  map outcome (dispatched (searches p) w1) = map outcome (dispatched (searches p) w2) ->
  exists r1 ev1 w1' r2 ev2 w2',
    perform_searches (Plan p) w1 = (Ok r1, ev1, w1')
    /\ perform_searches (Plan p) w2 = (Ok r2, ev2, w2')
    /\ Permutation r1 r2.
Proof.
  intros E. eexists _, _, _, _, _, _.
  split; [apply perform_searches_eq |]. split; [apply perform_searches_eq |].
  cbv zeta.
  eapply perm_trans; [apply successes_perm, as_completed_perm |].
  rewrite (successes_outcomes _ _ E).
  apply Permutation_sym, successes_perm, as_completed_perm.
Qed.


End DispatchTheorems.

Lemma C5_search_absorbs_failure_witness :
  @search Scenario.world (Scenario.item 3) boot
  = (Ok None,
     [ERunStart "SearchAgent" (search_input (Scenario.item 3));
      ERunEnd "SearchAgent" false;
      EPrint "Search failed for term 'AI healthcare topic 3': Request timed out."],
     {| trace_count := 0; run_count := 1; post_count := 0 |}).
Proof.
  exact (proj1 (@C5_search_absorbs_failure Scenario.world (Scenario.item 3) boot
                  {| trace_count := 0; run_count := 1; post_count := 0 |}
                  Scenario.timeout
                  [ERunStart "SearchAgent" (search_input (Scenario.item 3));
                   ERunEnd "SearchAgent" false]
                  eq_refl)).
Defined.

Lemma C7_dispatch_order_independent_witness :
  exists r1 ev1 w1' r2 ev2 w2',
    @perform_searches Scenario.world (Plan Scenario.the_plan) boot = (Ok r1, ev1, w1')
    /\ @perform_searches Scenario.world (Plan Scenario.the_plan)
         {| trace_count := 0; run_count := 4; post_count := 0 |} = (Ok r2, ev2, w2')
    /\ Permutation r1 r2.
Proof.
  apply (@C7_dispatch_order_independent Scenario.world Scenario.the_plan boot
           {| trace_count := 0; run_count := 4; post_count := 0 |}).
  vm_compute. reflexivity.
Defined.

(** The order of collection does depend on the latencies. *)
Lemma dispatch_order_differs :
  result (@perform_searches Scenario.world (Plan Scenario.the_plan) boot)
  <> result (@perform_searches Scenario.world (Plan Scenario.the_plan)
               {| trace_count := 0; run_count := 4; post_count := 0 |}).
Proof. vm_compute. discriminate. Qed.

(** ** Timelines *)

Lemma timeline_app (l1 l2 : list Event) :
  timeline (l1 ++ l2) = timeline l1 ++ timeline l2.
Proof. apply flat_map_app. Qed.

Lemma timeline_cons (e : Event) (l : list Event) :
  timeline (e :: l) = mark e ++ timeline l.
Proof. reflexivity. Qed.

Ltac split_timeline :=
  repeat (rewrite timeline_app || rewrite timeline_cons).

Lemma chunks_timeline (ev : list Event) : chunks ev = flat_map yielded (timeline ev).
Proof.
  induction ev as [| e ev IH]; [reflexivity |].
  unfold chunks, timeline in *. cbn [flat_map]. rewrite flat_map_app, <- IH.
  now destruct e.
Qed.

Lemma started_timeline (a : Agent) (ev : list Event) :
  started a ev = List.length (filter (is_started a) (timeline ev)).
Proof.
  unfold started, timeline. induction ev as [| e ev IH]; [reflexivity |].
  cbn [flat_map filter]. rewrite filter_app, length_app, <- IH.
  destruct e; cbn; try reflexivity. now destruct (String.eqb _ _).
Qed.

Lemma resolved_timeline (a : Agent) (ev : list Event) :
  resolved a ev = List.length (filter (is_ended a) (timeline ev)).
Proof.
  unfold resolved, timeline. induction ev as [| e ev IH]; [reflexivity |].
  cbn [flat_map filter]. rewrite filter_app, length_app, <- IH.
  destruct e; cbn; try reflexivity. now destruct (String.eqb _ _).
Qed.

Section Stages.
Context `{Collaborators}.

(** The function tool, by what becomes of its request. *)
Lemma send_email_tool_eq (subject html_body : string) (w : World) :
  let mail := {| from_email := "ish.mishra03@gmail.com";
                 to_email := "ish.mishra03@gmail.com";
                 mail_subject := subject;
                 content_type := "text/html"; content_value := html_body |} in
  EmailAgent.send_email subject html_body w
  = match sg_post mail w with
    | (inl r, w1) =>
        if is_2xx (status_code r)
        then (Ok [("status", "success")],
              [EPost mail r; EPrint ("Email response status: " +++ str_Z (status_code r))],
              w1)
        else (Raised (HTTPError (status_code r)), [EPost mail r], w1)
    | (inr e, w1) => (Raised e, [EPostFailed mail e], w1)
    end.
Proof.
  intros mail. unfold EmailAgent.send_email, bind, post, print, emit, ret.
  fold mail. destruct (sg_post mail w) as [[r | e] w1]; [| reflexivity].
  now destruct (is_2xx (status_code r)).
Qed.

Lemma send_email_tool_quiet (subject html_body : string) (w : World) :
  timeline (events (EmailAgent.send_email subject html_body w)) = [].
Proof.
  rewrite send_email_tool_eq. cbv zeta.
  destruct (sg_post _ w) as [[r | e] w1]; [| reflexivity].
  now destruct (is_2xx (status_code r)).
Qed.

Lemma call_function_tool_quiet (t subject html_body : string) (w : World) :
  timeline (events (call_function_tool t subject html_body w)) = [].
Proof.
  unfold call_function_tool. destruct (String.eqb t "send_email"); [| reflexivity].
  unfold try_except, bind. pose proof (send_email_tool_quiet subject html_body w) as Q.
  destruct (EmailAgent.send_email subject html_body w) as [[r ev] w1].
  unfold events in *. cbn [fst snd] in *.
  destruct r; cbn [ret fst snd]; now rewrite ?app_nil_r.
Qed.

Lemma converse_quiet (agent : Agent) (turns : nat) :
  forall (b : Behaviour) (w : World), timeline (events (converse agent turns b w)) = [].
Proof.
  induction turns as [| n IH]; intros b w; [reflexivity |].
  destruct b as [v | e | t subject html_body k]; try reflexivity.
  cbn [converse]. destruct (has_function_tool agent t); [| reflexivity].
  unfold bind. pose proof (call_function_tool_quiet t subject html_body w) as Q.
  destruct (call_function_tool t subject html_body w) as [[r ev] w1].
  destruct r as [out | e]; [| exact Q].
  specialize (IH (k out) w1). destruct (converse agent n (k out) w1) as [[r2 ev2] w2].
  unfold events in *. cbn [fst snd] in *. now rewrite timeline_app, Q, IH.
Qed.

Lemma Runner_finish_timeline (agent : Agent) (reply : Reply) (w : World) :
  timeline (events (Runner_finish agent reply w)) = [Ended (name agent)].
Proof.
  unfold Runner_finish, bind.
  pose proof (converse_quiet agent DEFAULT_MAX_TURNS (behaviour reply) w) as Q.
  destruct (converse agent DEFAULT_MAX_TURNS (behaviour reply) w) as [[r ev] w1].
  unfold events in *. cbn [fst snd] in *.
  destruct r as [v | e]; cbn [fst snd].
  - destruct (structured agent v w1) as [[r2 ev2] w2] eqn:S.
    assert (ev2 = []) as ->.
    { revert S. unfold structured. destruct (output_type agent) as [[|] |].
      - destruct (validate_WebSearchPlan v); now intros [= <- <- <-].
      - destruct (validate_ReportData v); now intros [= <- <- <-].
      - now intros [= <- <- <-]. }
    destruct r2; cbn [ret fst snd]; rewrite !timeline_app, ?app_nil_r, Q; reflexivity.
  - now rewrite timeline_app, Q.
Qed.

Lemma Runner_run_timeline (agent : Agent) (input : string) (w : World) :
  timeline (events (Runner_run agent input w)) = [Started (name agent); Ended (name agent)].
Proof.
  unfold Runner_run, bind, Runner_start. destruct (hosted agent input w) as [reply w1].
  pose proof (Runner_finish_timeline agent reply w1) as Q.
  destruct (Runner_finish agent reply w1) as [[r ev] w2].
  unfold events in *. cbn [fst snd] in *. now rewrite timeline_app, Q.
Qed.

(** An agent with an [output_type] returns an instance of that model or
    nothing. *)
Lemma Runner_run_planner (input : string) (w w' : World) (r : RunResult) (ev : list Event) :
  Runner_run planner_agent input w = (Ok r, ev, w') -> exists p, final_output r = Plan p.
Proof.
  unfold Runner_run, bind, Runner_start. destruct (hosted planner_agent input w) as [reply w1].
  unfold Runner_finish, bind.
  destruct (converse planner_agent DEFAULT_MAX_TURNS (behaviour reply) w1) as [[r1 ev1] w2].
  destruct r1 as [v | e]; [| discriminate].
  unfold structured. cbn [output_type planner_agent].
  destruct (validate_WebSearchPlan v) as [p |]; [| discriminate].
  cbn. intros [= <- _ _]. now exists p.
Qed.

Lemma Runner_run_writer (input : string) (w w' : World) (r : RunResult) (ev : list Event) :
  Runner_run writer_agent input w = (Ok r, ev, w') -> exists d, final_output r = Report d.
Proof.
  unfold Runner_run, bind, Runner_start. destruct (hosted writer_agent input w) as [reply w1].
  unfold Runner_finish, bind.
  destruct (converse writer_agent DEFAULT_MAX_TURNS (behaviour reply) w1) as [[r1 ev1] w2].
  destruct r1 as [v | e]; [| discriminate].
  unfold structured. cbn [output_type writer_agent].
  destruct (validate_ReportData v) as [d |]; [| discriminate].
  cbn. intros [= <- _ _]. now exists d.
Qed.

End Stages.

(** ** The stages of the orchestrator *)

Section Orchestrator.
Context `{Collaborators}.

Lemma plan_searches_timeline (q : string) (w : World) :
  timeline (events (plan_searches q w))
  = [Started (name planner_agent); Ended (name planner_agent)].
Proof.
  unfold plan_searches, bind, print, emit.
  pose proof (Runner_run_timeline planner_agent ("Query: " +++ q) w) as Q.
  destruct (Runner_run planner_agent ("Query: " +++ q) w) as [[r ev] w1].
  unfold events in *. cbn [fst snd] in *.
  destruct r as [res | e]; cbn [fst snd app timeline flat_map mark]; [| exact Q].
  destruct (final_output res); cbn [getattr_searches ret raise fst snd];
    rewrite ?app_nil_r; fold (timeline ev); try exact Q.
  change (timeline (ev ++ [EPrint ("Will perform " +++ str_nat (List.length (searches p))
                                    +++ " searches")]) = [Started (name planner_agent);
                                                         Ended (name planner_agent)]).
  now rewrite timeline_app, Q.
Qed.

Lemma plan_searches_ok (q : string) (w w' : World) (o : PyObj) (ev : list Event) :
  plan_searches q w = (Ok o, ev, w') -> exists p, o = Plan p.
Proof.
  unfold plan_searches, bind, print, emit.
  destruct (Runner_run planner_agent ("Query: " +++ q) w) as [[r ev1] w1] eqn:R.
  destruct r as [res | e]; [| discriminate].
  destruct (Runner_run_planner _ _ _ _ _ R) as [p P].
  unfold final_output_as. rewrite P. cbn. intros [= <- _ _]. now exists p.
Qed.

Lemma write_report_timeline (q : string) (rs : list string) (w : World) :
  timeline (events (write_report q rs w))
  = [Started (name writer_agent); Ended (name writer_agent)].
Proof.
  unfold write_report, bind, print, emit. fold (writer_input q rs).
  pose proof (Runner_run_timeline writer_agent (writer_input q rs) w) as Q.
  destruct (Runner_run writer_agent (writer_input q rs) w) as [[r ev] w1].
  unfold events in *. cbn [fst snd] in *.
  destruct r as [res | e]; cbn [fst snd app timeline flat_map mark ret]; [| exact Q].
  fold (timeline (ev ++ [EPrint "Finished writing report"] ++ [])).
  now rewrite !timeline_app, Q.
Qed.

Lemma write_report_ok (q : string) (rs : list string) (w w' : World) (o : PyObj)
  (ev : list Event) :
  write_report q rs w = (Ok o, ev, w') -> exists d, o = Report d.
Proof.
  unfold write_report, bind, print, emit. fold (writer_input q rs).
  destruct (Runner_run writer_agent (writer_input q rs) w) as [[r ev1] w1] eqn:R.
  destruct r as [res | e]; [| discriminate].
  destruct (Runner_run_writer _ _ _ _ _ R) as [d D].
  unfold final_output_as. rewrite D. cbn. intros [= <- _ _]. now exists d.
Qed.

Lemma send_email_timeline (d : ReportData) (w : World) :
  timeline (events (send_email (Report d) w))
  = [Started (name email_agent); Ended (name email_agent)].
Proof.
  unfold send_email, bind, print, emit. cbn [getattr_markdown_report ret].
  pose proof (Runner_run_timeline email_agent (markdown_report d) w) as Q.
  destruct (Runner_run email_agent (markdown_report d) w) as [[r ev] w1].
  unfold events in *. cbn [fst snd] in *.
  destruct r as [res | e]; cbn [fst snd app timeline flat_map mark]; [| exact Q].
  fold (timeline (ev ++ [EPrint "Email sent"])). now rewrite timeline_app, Q.
Qed.

Lemma starts_timeline (items : list WebSearchItem) :
  timeline (start_events items) = repeat (Started (name search_agent)) (List.length items).
Proof.
  induction items as [| i rest IH]; [reflexivity |].
  cbn [start_events map timeline flat_map mark List.length repeat app]. f_equal. exact IH.
Qed.

Lemma loop_timeline (total : nat) (pending : list Task) :
  forall n : nat,
    timeline (loop_events total n pending)
    = repeat (Ended (name search_agent)) (List.length pending).
Proof.
  induction pending as [| t rest IH]; intros n; [reflexivity |].
  cbn [loop_events List.length repeat]. rewrite timeline_app.
  cbn [timeline flat_map mark app]. fold (timeline (loop_events total (n + 1) rest)).
  rewrite IH. unfold resume_events. now destruct (verdict _).
Qed.

Lemma perform_searches_timeline (p : WebSearchPlan) (w : World) :
  timeline (events (perform_searches (Plan p) w))
  = repeat (Started (name search_agent)) (List.length (searches p))
    ++ repeat (Ended (name search_agent)) (List.length (searches p)).
Proof.
  rewrite perform_searches_eq. unfold events. cbn [fst snd].
  change (EPrint "Searching..." :: ?l) with ([EPrint "Searching..."] ++ l).
  rewrite !timeline_app, starts_timeline, loop_timeline, as_completed_length.
  rewrite dispatched_length. cbn [timeline flat_map mark app]. now rewrite app_nil_r.
Qed.

Lemma run_after_write (q : string) :
  run q
  = (trace_id <- fresh_trace_id;;
     with_trace "Research trace" trace_id
       (print (trace_url +++ trace_id);;
        yield (trace_url +++ trace_id);;
        print "Starting research...";;
        search_plan <- plan_searches q;;
        yield "Searches planned, starting to search...";;
        search_results <- perform_searches search_plan;;
        yield "Searches complete, writing report...";;
        report <- write_report q search_results;;
        after_write report)).
Proof. reflexivity. Qed.

(** [run], stage by stage. *)
Lemma run_planning_failed (q : string) (w w0 w1 : World) (tid : string) (e : Exn)
  (ev1 : list Event) :
  gen_trace_id w = (tid, w0) ->
  plan_searches q w0 = (Raised e, ev1, w1) ->
  run q w = (Raised e, head_events tid ++ ev1 ++ [ETraceEnd tid], w1).
Proof.
  intros G P. unfold run, with_trace, fresh_trace_id, bind. rewrite G.
  unfold print, yield, emit. rewrite P. cbn [app]. now rewrite <- ?app_assoc.
Qed.

Lemma run_writing_failed (q : string) (w w0 w1 w2 w3 : World) (tid : string) (e : Exn)
  (p : WebSearchPlan) (rs : list string) (ev1 ev2 ev3 : list Event) :
  gen_trace_id w = (tid, w0) ->
  plan_searches q w0 = (Ok (Plan p), ev1, w1) ->
  perform_searches (Plan p) w1 = (Ok rs, ev2, w2) ->
  write_report q rs w2 = (Raised e, ev3, w3) ->
  run q w
  = (Raised e,
     head_events tid ++ ev1 ++ EYield "Searches planned, starting to search..." :: ev2
       ++ EYield "Searches complete, writing report..." :: ev3 ++ [ETraceEnd tid],
     w3).
Proof.
  intros G P S W. unfold run, with_trace, fresh_trace_id, bind. rewrite G.
  unfold print, yield, emit. rewrite P, S, W. cbn [app].
  repeat (rewrite <- ?app_assoc; cbn [app]). reflexivity.
Qed.

Lemma run_after_written (q : string) (w w0 w1 w2 w3 w4 : World) (tid : string)
  (p : WebSearchPlan) (rs : list string) (d : ReportData) (r : Res unit)
  (ev1 ev2 ev3 ev4 : list Event) :
  gen_trace_id w = (tid, w0) ->
  plan_searches q w0 = (Ok (Plan p), ev1, w1) ->
  perform_searches (Plan p) w1 = (Ok rs, ev2, w2) ->
  write_report q rs w2 = (Ok (Report d), ev3, w3) ->
  send_email (Report d) w3 = (r, ev4, w4) ->
  run q w
  = (r,
     head_events tid ++ ev1 ++ EYield "Searches planned, starting to search..." :: ev2
       ++ EYield "Searches complete, writing report..." :: ev3
       ++ EYield "Report written, sending email..." :: ev4
       ++ (if is_ok r
           then [EYield "Email sent, research complete"; EYield (markdown_report d)]
           else [])
       ++ [ETraceEnd tid],
     w4).
Proof.
  intros G P S W E. unfold run, with_trace, fresh_trace_id, bind. rewrite G.
  unfold print, yield, emit. rewrite P, S, W, E. cbn [app getattr_markdown_report ret].
  destruct r as [[] | e]; cbn [is_ok app];
    repeat (rewrite <- ?app_assoc; cbn [app]); reflexivity.
Qed.

End Orchestrator.

(** ** Theorems on the orchestrator *)

Section OrchestratorTheorems.
Context `{Collaborators}.

Lemma timeline_of (A : Type) (m : M A) (w w' : World) (r : Res A) (ev : list Event)
  (tl : list Mark) :
  timeline (events (m w)) = tl -> m w = (r, ev, w') -> timeline ev = tl.
Proof. intros T E. now rewrite E in T. Qed.

Lemma run_timeline_planning_failed (q : string) (w w0 w1 : World) (tid : string)
  (e : Exn) (ev1 : list Event) :
  gen_trace_id w = (tid, w0) ->
  plan_searches q w0 = (Raised e, ev1, w1) ->
  result (run q w) = Raised e
  /\ timeline (events (run q w)) = [Yielded (trace_url +++ tid); SP; EP].
Proof.
  intros G P. rewrite (run_planning_failed _ _ _ _ _ _ _ G P).
  split; [reflexivity |]. unfold events, head_events. cbn [fst snd].
  pose proof (timeline_of _ _ _ _ _ _ _ (plan_searches_timeline q w0) P) as T1.
  split_timeline. rewrite T1. reflexivity.
Qed.

Lemma run_timeline_writing_failed (q : string) (w w0 w1 w2 w3 : World) (tid : string)
  (e : Exn) (p : WebSearchPlan) (rs : list string) (ev1 ev2 ev3 : list Event) :
  gen_trace_id w = (tid, w0) ->
  plan_searches q w0 = (Ok (Plan p), ev1, w1) ->
  perform_searches (Plan p) w1 = (Ok rs, ev2, w2) ->
  write_report q rs w2 = (Raised e, ev3, w3) ->
  result (run q w) = Raised e
  /\ final (run q w) = w3
  /\ timeline (events (run q w))
     = through_search tid (List.length (searches p))
       ++ [Yielded "Searches complete, writing report..."; SW; EW].
Proof.
  intros G P S W. rewrite (run_writing_failed _ _ _ _ _ _ _ _ _ _ _ _ _ G P S W).
  split; [reflexivity |]. split; [reflexivity |].
  unfold events, head_events, through_search. cbn [fst snd].
  pose proof (timeline_of _ _ _ _ _ _ _ (plan_searches_timeline q w0) P) as T1.
  pose proof (timeline_of _ _ _ _ _ _ _ (perform_searches_timeline p w1) S) as T2.
  pose proof (timeline_of _ _ _ _ _ _ _ (write_report_timeline q rs w2) W) as T3.
  split_timeline. rewrite T1, T2, T3. cbn [timeline flat_map mark app].
  rewrite <- !app_assoc. reflexivity.
Qed.

Lemma run_timeline_after_written (q : string) (w w0 w1 w2 w3 w4 : World) (tid : string)
  (p : WebSearchPlan) (rs : list string) (d : ReportData) (r : Res unit)
  (ev1 ev2 ev3 ev4 : list Event) :
  gen_trace_id w = (tid, w0) ->
  plan_searches q w0 = (Ok (Plan p), ev1, w1) ->
  perform_searches (Plan p) w1 = (Ok rs, ev2, w2) ->
  write_report q rs w2 = (Ok (Report d), ev3, w3) ->
  send_email (Report d) w3 = (r, ev4, w4) ->
  result (run q w) = r
  /\ final (run q w) = w4
  /\ timeline (events (run q w))
     = through_search tid (List.length (searches p))
       ++ [Yielded "Searches complete, writing report..."; SW; EW;
           Yielded "Report written, sending email..."; SE; EE]
       ++ (if is_ok r
           then [Yielded "Email sent, research complete"; Yielded (markdown_report d)]
           else []).
Proof.
  intros G P S W E. rewrite (run_after_written _ _ _ _ _ _ _ _ _ _ _ _ _ _ _ _ G P S W E).
  split; [reflexivity |]. split; [reflexivity |].
  unfold events, head_events, through_search. cbn [fst snd].
  pose proof (timeline_of _ _ _ _ _ _ _ (plan_searches_timeline q w0) P) as T1.
  pose proof (timeline_of _ _ _ _ _ _ _ (perform_searches_timeline p w1) S) as T2.
  pose proof (timeline_of _ _ _ _ _ _ _ (write_report_timeline q rs w2) W) as T3.
  pose proof (timeline_of _ _ _ _ _ _ _ (send_email_timeline d w3) E) as T4.
  split_timeline. rewrite T1, T2, T3, T4. cbn [timeline flat_map mark app].
  rewrite <- !app_assoc. cbn [app]. do 2 f_equal.
  destruct r; reflexivity.
Qed.

Lemma flat_map_repeat (A B : Type) (f : A -> list B) (x : A) (n : nat) :
  f x = [] -> flat_map f (repeat x n) = [].
Proof. intros E. induction n as [| n IH]; cbn; [reflexivity | now rewrite E, IH]. Qed.

Lemma filter_repeat_false (A : Type) (f : A -> bool) (x : A) (n : nat) :
  f x = false -> filter f (repeat x n) = [].
Proof. intros E. induction n as [| n IH]; cbn; [reflexivity | now rewrite E, IH]. Qed.

Lemma filter_repeat_true (A : Type) (f : A -> bool) (x : A) (n : nat) :
  f x = true -> filter f (repeat x n) = repeat x n.
Proof. intros E. induction n as [| n IH]; cbn; [reflexivity | now rewrite E, IH]. Qed.

Lemma perform_searches_length (p : WebSearchPlan) (w w' : World) (rs : list string)
  (ev : list Event) :
  perform_searches (Plan p) w = (Ok rs, ev, w') ->
  List.length rs + failures (dispatched (searches p) w) = List.length (searches p).
Proof.
  rewrite perform_searches_eq. intros [= <- _ _].
  rewrite (Permutation_length (successes_perm _ _ (as_completed_perm _))).
  rewrite successes_failures. apply dispatched_length.
Qed.

Lemma through_search_chunks (tid : string) (N : nat) :
  flat_map yielded (through_search tid N)
  = [trace_url +++ tid; "Searches planned, starting to search..."].
Proof.
  unfold through_search. rewrite !flat_map_app.
  rewrite !flat_map_repeat by reflexivity. reflexivity.
Qed.

Lemma through_search_no_email (tid : string) (N : nat) :
  filter (is_started email_agent) (through_search tid N) = [].
Proof.
  unfold through_search. rewrite !filter_app.
  rewrite !filter_repeat_false by reflexivity. reflexivity.
Qed.

Lemma run_as_triple (q : string) (w : World) :
  run q w = (result (run q w), events (run q w), final (run q w)).
Proof. now destruct (run q w) as [[r ev] w']. Qed.






(** C3: five items planned, four searches succeed and one fails, writing
    and notifying succeed: [run] yields six chunks, the five status
    chunks in their order and then the report's markdown text, and the
    mailer is started exactly once. *)
Theorem C3_five_planned_one_failed (q : string) (w w0 w1 w2 w3 w4 : World) (tid : string)
  (p : WebSearchPlan) (rs : list string) (d : ReportData)
  (ev1 ev2 ev3 ev4 : list Event) :
  gen_trace_id w = (tid, w0) ->
  plan_searches q w0 = (Ok (Plan p), ev1, w1) ->
  List.length (searches p) = 5 ->
  failures (dispatched (searches p) w1) = 1 ->
  perform_searches (Plan p) w1 = (Ok rs, ev2, w2) ->
  write_report q rs w2 = (Ok (Report d), ev3, w3) ->
  send_email (Report d) w3 = (Ok tt, ev4, w4) ->
  exists ev,
    run q w = (Ok tt, ev, w4)
    /\ chunks ev
       = [trace_url +++ tid; "Searches planned, starting to search...";
          "Searches complete, writing report..."; "Report written, sending email...";
          "Email sent, research complete"; markdown_report d]
    /\ List.length (chunks ev) = 6
    /\ started email_agent ev = 1
    /\ List.length rs = 4.
Proof.
  intros G P L5 K S W E.
  destruct (run_timeline_after_written _ _ _ _ _ _ _ _ _ _ _ _ _ _ _ _ G P S W E)
    as (R & F & T).
  exists (events (run q w)).
  assert (C : chunks (events (run q w))
              = [trace_url +++ tid; "Searches planned, starting to search...";
                 "Searches complete, writing report..."; "Report written, sending email...";
                 "Email sent, research complete"; markdown_report d]).
  { rewrite chunks_timeline, T, !flat_map_app, through_search_chunks. reflexivity. }
  split; [| split; [exact C | split; [now rewrite C | split]]].
  - rewrite (run_as_triple q w) at 1. now rewrite R, F.
  - rewrite started_timeline, T, !filter_app, through_search_no_email. reflexivity.
  - pose proof (perform_searches_length _ _ _ _ _ S) as LS. lia.
Qed.

(** C4: when the writer's answer does not validate as a report,
    [write_report] raises, [run] raises the same error after the third
    status chunk, the mailer is never started and no report is yielded. *)
Theorem C4_malformed_report_is_fatal (q : string) (w w0 w1 w2 w3 : World) (tid : string)
  (p : WebSearchPlan) (rs : list string) (reply : Reply) (v : PyVal)
  (ev1 ev2 : list Event) :
  gen_trace_id w = (tid, w0) ->
  plan_searches q w0 = (Ok (Plan p), ev1, w1) ->
  perform_searches (Plan p) w1 = (Ok rs, ev2, w2) ->
  hosted writer_agent (writer_input q rs) w2 = (reply, w3) ->
  behaviour reply = Final v ->
  validate_ReportData v = None ->
  exists e ev3 ev,
    write_report q rs w2 = (Raised e, ev3, w3)
    /\ exn_class e = "ModelBehaviorError"
    /\ run q w = (Raised e, ev, w3)
    /\ chunks ev
       = [trace_url +++ tid; "Searches planned, starting to search...";
          "Searches complete, writing report..."]
    /\ started email_agent ev = 0.
Proof.
  intros G P S Hh B V.
  assert (W : write_report q rs w2
              = (Raised (ModelBehaviorError "Invalid JSON when parsing for ReportData"),
                 [EPrint "Thinking about report...";
                  ERunStart (name writer_agent) (writer_input q rs);
                  ERunEnd (name writer_agent) false], w3)).
  { unfold write_report, bind, print, emit. fold (writer_input q rs).
    unfold Runner_run, bind, Runner_start. rewrite Hh.
    unfold Runner_finish, bind, DEFAULT_MAX_TURNS. rewrite B. cbn [converse ret].
    unfold structured. cbn [output_type writer_agent]. rewrite V. reflexivity. }
  destruct (run_timeline_writing_failed _ _ _ _ _ _ _ _ _ _ _ _ _ G P S W) as (R & F & T).
  eexists _, _, (events (run q w)). split; [exact W |]. split; [reflexivity |].
  split; [| split].
  - rewrite (run_as_triple q w) at 1. now rewrite R, F.
  - rewrite chunks_timeline, T, !flat_map_app, through_search_chunks. reflexivity.
  - rewrite started_timeline, T, !filter_app, through_search_no_email. reflexivity.
Qed.

(** C8: [perform_searches] returns, after its last print, when every
    unit it started is over, with every successful summary; and in every
    run the writer is started, if at all, after as many search runs have
    ended as were started, one per planned item, none being started or
    ended later. *)
Theorem C8_join_before_write (q : string) (w : World) :
  (forall (p : WebSearchPlan) (w1 : World), exists rs ev w2,
      perform_searches (Plan p) w1 = (Ok rs, ev ++ [EPrint "Finished searching"], w2)
      /\ started search_agent ev = List.length (searches p)
      /\ resolved search_agent ev = List.length (searches p)
      /\ Permutation rs (successes (dispatched (searches p) w1)))
  /\ let tid := fst (gen_trace_id w) in
     let tl := timeline (events (run q w)) in
     (exists e, result (plan_searches q (snd (gen_trace_id w))) = Raised e
                /\ tl = [Yielded (trace_url +++ tid); SP; EP])
     \/ (exists p rest,
            result (plan_searches q (snd (gen_trace_id w))) = Ok (Plan p)
            /\ tl = through_search tid (List.length (searches p))
                    ++ Yielded "Searches complete, writing report..." :: SW :: rest
            /\ filter (fun m => is_started search_agent m || is_ended search_agent m) rest
               = []).
Proof.
  split.
  - intros p w1. pose proof (perform_searches_eq p w1) as E. cbv zeta in E.
    pose proof (perform_searches_timeline p w1) as T. rewrite E in T.
    unfold events in T. cbn [fst snd] in T.
    set (ts := dispatched (searches p) w1) in *.
    set (ev := EPrint "Searching..." :: start_events (searches p)
                 ++ loop_events (List.length ts) 0 (as_completed ts)) in *.
    assert (T' : timeline ev = repeat SS (List.length (searches p))
                               ++ repeat ES (List.length (searches p))).
    { unfold SS, ES. rewrite <- T. unfold ev. split_timeline. cbn. now rewrite !app_nil_r. }
    exists (successes (as_completed ts)), ev, (after_dispatch (searches p) w1).
    split; [| split; [| split]].
    + rewrite E. unfold ev. cbn [app]. now rewrite <- app_assoc.
    + rewrite started_timeline, T', filter_app.
      rewrite filter_repeat_true, filter_repeat_false by reflexivity.
      rewrite app_nil_r. apply repeat_length.
    + rewrite resolved_timeline, T', filter_app.
      rewrite filter_repeat_false, filter_repeat_true by reflexivity.
      apply repeat_length.
    + apply successes_perm, as_completed_perm.
  - cbv zeta. destruct (gen_trace_id w) as [tid w0] eqn:G. cbn [fst snd].
    destruct (plan_searches q w0) as [[r1 ev1] w1] eqn:P.
    destruct r1 as [o | e].
    + destruct (plan_searches_ok _ _ _ _ _ P) as [p ->]. right. exists p.
      pose proof (perform_searches_eq p w1) as S. cbv zeta in S.
      destruct (write_report q (successes (as_completed (dispatched (searches p) w1)))
                  (after_dispatch (searches p) w1)) as [[r3 ev3] w3] eqn:W.
      destruct r3 as [o | e].
      * destruct (write_report_ok _ _ _ _ _ _ W) as [d ->].
        destruct (send_email (Report d) w3) as [[r4 ev4] w4] eqn:E.
        destruct (run_timeline_after_written _ _ _ _ _ _ _ _ _ _ _ _ _ _ _ _ G P S W E)
          as (_ & _ & T).
        eexists. split; [reflexivity |]. split; [exact T |].
        now destruct r4.
      * destruct (run_timeline_writing_failed _ _ _ _ _ _ _ _ _ _ _ _ _ G P S W)
          as (_ & _ & T).
        eexists. split; [reflexivity |]. split; [exact T | reflexivity].
    + left. exists e. split; [reflexivity |].
      apply (run_timeline_planning_failed _ _ _ _ _ _ _ G P).
Qed.

(** C9: two reports with the same [markdown_report] make the Notify
    stage, and all of [run] that follows the Write stage, do the same:
    same request to the mailer, same events, same result. *)
Theorem C9_only_markdown_reaches_email (d1 d2 : ReportData) (w : World) :
  markdown_report d1 = markdown_report d2 ->
  send_email (Report d1) w = send_email (Report d2) w
  /\ after_write (Report d1) w = after_write (Report d2) w.
Proof.
  intros E. unfold after_write, send_email, bind. cbn [getattr_markdown_report ret].
  now rewrite E.
Qed.

End OrchestratorTheorems.

(** ** Stubbed responses and repeated runs *)

Section Determinism.
Context `{Collaborators}.

Lemma det_ret (A : Type) (a : A) : det (ret a).
Proof. now intros w w'. Qed.

Lemma det_raise (A : Type) (e : Exn) : det (@raise _ A e).
Proof. now intros w w'. Qed.

Lemma det_emit (e : Event) : det (emit e).
Proof. now intros w w'. Qed.

Lemma det_bind (A B : Type) (m : M A) (f : A -> M B) :
  det m -> (forall a, det (f a)) -> det (bind m f).
Proof.
  intros Dm Df w w'. unfold bind. specialize (Dm w w').
  destruct (m w) as [[r ev] w1], (m w') as [[r' ev'] w1'].
  cbn in Dm. injection Dm as -> ->. destruct r' as [a | e]; [| reflexivity].
  specialize (Df a w1 w1').
  destruct (f a w1) as [[r2 ev2] w2], (f a w1') as [[r2' ev2'] w2'].
  cbn in *. now injection Df as -> ->.
Qed.

Lemma det_try_except (A : Type) (m : M A) (h : Exn -> M A) :
  det m -> (forall e, det (h e)) -> det (try_except m h).
Proof.
  intros Dm Dh w w'. unfold try_except. specialize (Dm w w').
  destruct (m w) as [[r ev] w1], (m w') as [[r' ev'] w1'].
  cbn in Dm. injection Dm as -> ->. destruct r' as [a | e]; [reflexivity |].
  specialize (Dh e w1 w1').
  destruct (h e w1) as [[r2 ev2] w2], (h e w1') as [[r2' ev2'] w2'].
  cbn in *. now injection Dh as -> ->.
Qed.

Create HintDb det discriminated.

Ltac det_step :=
  lazymatch goal with
  | |- det (bind _ _) => apply det_bind
  | |- det (ret _) => apply det_ret
  | |- det (raise _) => apply det_raise
  | |- det (emit _) => apply det_emit
  | |- det (print _) => apply det_emit
  | |- det (yield _) => apply det_emit
  | |- det (try_except _ _) => apply det_try_except
  | |- det _ => solve [auto 2 with det nocore]
  | |- forall _, _ => intro; cbv beta
  end.

Ltac det_steps := repeat det_step.

Section Stubbed.
Hypothesis Hstub : stubbed.

Lemma det_post (m : Mail) : det (post m).
Proof.
  intros w w'. unfold post. pose proof (proj2 Hstub m w w') as E.
  destruct (sg_post m w) as [a w1], (sg_post m w') as [a' w1']. cbn in E. subst a'.
  destruct a as [r | e]; [| reflexivity]. now destruct (is_2xx (status_code r)).
Qed.

Lemma det_Runner_start (a : Agent) (i : string) : det (Runner_start a i).
Proof.
  intros w w'. unfold Runner_start. pose proof (proj1 Hstub a i w w') as E.
  destruct (hosted a i w), (hosted a i w'). cbn in *. now subst.
Qed.

Hint Resolve det_post det_Runner_start : det.

Lemma det_send_email_tool (subject html_body : string) :
  det (EmailAgent.send_email subject html_body).
Proof. unfold EmailAgent.send_email. det_steps. Qed.

Hint Resolve det_send_email_tool : det.

Lemma det_call_function_tool (t subject html_body : string) :
  det (call_function_tool t subject html_body).
Proof. unfold call_function_tool. destruct (String.eqb t "send_email"); det_steps. Qed.

Hint Resolve det_call_function_tool : det.

Lemma det_converse (a : Agent) (turns : nat) :
  forall b : Behaviour, det (converse a turns b).
Proof.
  induction turns as [| n IH]; intros b; cbn [converse]; det_steps.
  destruct b as [v | e | t subject html_body k]; det_steps.
  destruct (has_function_tool a t); det_steps.
Qed.

Lemma det_structured (a : Agent) (v : PyVal) : det (structured a v).
Proof.
  unfold structured. destruct (output_type a) as [[|] |]; det_steps.
  - destruct (validate_WebSearchPlan v); det_steps.
  - destruct (validate_ReportData v); det_steps.
Qed.

Hint Resolve det_converse det_structured : det.

Lemma det_Runner_finish (a : Agent) (reply : Reply) : det (Runner_finish a reply).
Proof.
  assert (D : det (v <- converse a DEFAULT_MAX_TURNS (behaviour reply);;
                   out <- structured a v;;
                   ret {| final_output := out |})) by det_steps.
  intros w w'. unfold Runner_finish. specialize (D w w').
  destruct (bind _ _ w) as [[r ev] w1], (bind _ _ w') as [[r' ev'] w1'].
  cbn in *. now injection D as -> ->.
Qed.

Hint Resolve det_Runner_finish : det.

Lemma det_Runner_run (a : Agent) (i : string) : det (Runner_run a i).
Proof. unfold Runner_run. det_steps. Qed.

Lemma det_getattr_searches (o : PyObj) : det (getattr_searches o).
Proof. destruct o; cbn [getattr_searches]; det_steps. Qed.

Lemma det_getattr_markdown_report (o : PyObj) : det (getattr_markdown_report o).
Proof. destruct o; cbn [getattr_markdown_report]; det_steps. Qed.

Hint Resolve det_Runner_run det_getattr_searches det_getattr_markdown_report : det.

Lemma det_plan_searches (q : string) : det (plan_searches q).
Proof. unfold plan_searches. det_steps. Qed.

Lemma det_search_begin (item : WebSearchItem) : det (search_begin item).
Proof. unfold search_begin. det_steps. Qed.

Lemma det_search_resume (t : Task) : det (search_resume t).
Proof. unfold search_resume. det_steps. Qed.

Hint Resolve det_search_begin det_search_resume : det.

Lemma det_create_tasks (items : list WebSearchItem) : det (create_tasks items).
Proof. induction items as [| i rest IH]; cbn [create_tasks]; det_steps. Qed.

Lemma det_collect (total : nat) (pending : list Task) :
  forall (results : list string) (n : nat), det (collect total pending results n).
Proof.
  induction pending as [| t rest IH]; intros results n; cbn [collect]; det_steps.
Qed.

Hint Resolve det_create_tasks det_collect : det.

Lemma det_perform_searches (o : PyObj) : det (perform_searches o).
Proof. unfold perform_searches. det_steps. Qed.

Lemma det_write_report (q : string) (rs : list string) : det (write_report q rs).
Proof. unfold write_report. det_steps. Qed.

Lemma det_send_email (o : PyObj) : det (send_email o).
Proof. unfold send_email. det_steps. Qed.

Hint Resolve det_plan_searches det_perform_searches det_write_report det_send_email : det.

Lemma det_pipeline_stubbed (q : string) : det (pipeline q).
Proof. unfold pipeline. det_steps. Qed.

End Stubbed.

Lemma run_pipeline (q : string) :
  run q
  = (trace_id <- fresh_trace_id;;
     with_trace "Research trace" trace_id
       (print (trace_url +++ trace_id);;
        yield (trace_url +++ trace_id);;
        pipeline q)).
Proof. reflexivity. Qed.

Lemma det_pipeline (q : string) : stubbed -> det (pipeline q).
Proof. intros Hstub. now apply det_pipeline_stubbed. Qed.

Lemma chunks_app (l1 l2 : list Event) : chunks (l1 ++ l2) = chunks l1 ++ chunks l2.
Proof. apply flat_map_app. Qed.

Lemma run_first_chunk (q : string) (w : World) :
  result (run q w) = result (pipeline q (snd (gen_trace_id w)))
  /\ chunks (events (run q w))
     = (trace_url +++ fst (gen_trace_id w))
         :: chunks (events (pipeline q (snd (gen_trace_id w)))).
Proof.
  rewrite run_pipeline. unfold bind, fresh_trace_id, with_trace, print, yield, emit.
  cbv beta. destruct (gen_trace_id w) as [tid w0]. cbn [fst snd].
  destruct (pipeline q w0) as [[r ev] w1]. unfold result, events. cbn [fst snd app].
  split; [reflexivity |].
  change (chunks (ETraceStart "Research trace" tid :: EPrint (trace_url +++ tid)
                    :: EYield (trace_url +++ tid) :: ev ++ [ETraceEnd tid]))
    with ((trace_url +++ tid) :: chunks (ev ++ [ETraceEnd tid])).
  now rewrite chunks_app, app_nil_r.
Qed.

(** C6, as amended: with deterministic stubs two runs in a row on the
    same query end alike and yield as many chunks, equal at every
    position but the first; the first chunk of each run carries the
    trace id generated for that run, so the two sequences are equal
    exactly when the two ids are. *)
Theorem C6_runs_agree_after_trace_chunk (q : string) (w : World) :
  stubbed ->
  let first := run q w in
  let second := run q (final first) in
  result first = result second
  /\ List.length (chunks (events first)) = List.length (chunks (events second))
  /\ tl (chunks (events first)) = tl (chunks (events second))
  /\ hd_error (chunks (events first)) = Some (trace_url +++ fst (gen_trace_id w))
  /\ hd_error (chunks (events second))
     = Some (trace_url +++ fst (gen_trace_id (final first)))
  /\ (chunks (events first) = chunks (events second)
      <-> fst (gen_trace_id w) = fst (gen_trace_id (final first))).
Proof.
  intros Hstub first second. unfold second.
  destruct (run_first_chunk q w) as [R1 C1].
  destruct (run_first_chunk q (final first)) as [R2 C2].
  fold first in R1, C1.
  pose proof (det_pipeline q Hstub (snd (gen_trace_id w))
                (snd (gen_trace_id (final first)))) as D.
  assert (DR : result (pipeline q (snd (gen_trace_id w)))
               = result (pipeline q (snd (gen_trace_id (final first)))))
    by (unfold result; now rewrite D).
  assert (DE : events (pipeline q (snd (gen_trace_id w)))
               = events (pipeline q (snd (gen_trace_id (final first)))))
    by (unfold events; now rewrite D).
  rewrite R1, R2, C1, C2, DR, DE. cbn [tl hd_error List.length].
  repeat split; try reflexivity.
  - intros E. injection E as E. exact E.
  - now intros ->.
Qed.

End Determinism.

(** C6, as stated, fails: the stubs of [Scenario.steady_world] are
    deterministic, yet the second run's first chunk carries the second
    trace id. *)
Lemma C6_identical_chunks_counterexample :
  @stubbed Scenario.steady_world
  /\ chunks (events (@run Scenario.steady_world Scenario.the_query boot))
     <> chunks (events (@run Scenario.steady_world Scenario.the_query
                          (final (@run Scenario.steady_world Scenario.the_query boot)))).
Proof.
  split.
  - split; intros; reflexivity.
  - vm_compute. discriminate.
Qed.

Lemma C6_runs_agree_after_trace_chunk_witness :
  tl (chunks (events (@run Scenario.steady_world Scenario.the_query boot)))
  = tl (chunks (events (@run Scenario.steady_world Scenario.the_query
                          (final (@run Scenario.steady_world Scenario.the_query boot))))).
Proof.
  refine (proj1 (proj2 (proj2
    (@C6_runs_agree_after_trace_chunk Scenario.steady_world Scenario.the_query boot _)))).
  split; intros; reflexivity.
Defined.

(** ** The claims at work on the scenario *)

Lemma C3_five_planned_one_failed_witness :
  exists ev,
    @run Scenario.world Scenario.the_query boot
    = (Ok tt, ev, {| trace_count := 1; run_count := 8; post_count := 1 |})
    /\ chunks ev
       = ["View trace: https://platform.openai.com/traces/trace?trace_id=trace_0";
          "Searches planned, starting to search...";
          "Searches complete, writing report..."; "Report written, sending email...";
          "Email sent, research complete"; "# Impact of AI on Healthcare"]
    /\ started email_agent ev = 1.
Proof.
  destruct (@C3_five_planned_one_failed Scenario.world Scenario.the_query boot
              _ _ _ _ _ _ _ _ _ _ _ _ _
              eq_refl eq_refl eq_refl eq_refl eq_refl eq_refl eq_refl)
    as (ev & E & C & _ & S & _).
  exists ev. split; [exact E |]. split; [exact C | exact S].
Defined.



Lemma C4_malformed_report_is_fatal_witness :
  exists e ev,
    @run Scenario.broken_world Scenario.the_query boot
    = (Raised e, ev, {| trace_count := 1; run_count := 7; post_count := 0 |})
    /\ exn_class e = "ModelBehaviorError"
    /\ chunks ev
       = ["View trace: https://platform.openai.com/traces/trace?trace_id=trace_0";
          "Searches planned, starting to search...";
          "Searches complete, writing report..."]
    /\ started email_agent ev = 0.
Proof.
  destruct (@C4_malformed_report_is_fatal Scenario.broken_world Scenario.the_query boot
              _ _ _ _ _ _ _ _ _ _ _
              eq_refl eq_refl eq_refl eq_refl eq_refl eq_refl)
    as (e & ev3 & ev & _ & X & R & C & S).
  exists e, ev. split; [exact R |]. split; [exact X |]. split; [exact C | exact S].
Defined.

Lemma C9_only_markdown_reaches_email_witness :
  @send_email Scenario.world (Report Scenario.the_report) boot
  = @send_email Scenario.world
      (Report {| short_summary := "Another summary.";
                 markdown_report := "# Impact of AI on Healthcare";
                 follow_up_questions := [] |}) boot.
Proof.
  exact (proj1 (@C9_only_markdown_reaches_email Scenario.world Scenario.the_report
                  {| short_summary := "Another summary.";
                     markdown_report := "# Impact of AI on Healthcare";
                     follow_up_questions := [] |} boot eq_refl)).
Defined.

(** ** Every assignment of replies occurs

    The theorems on the dispatcher quantify over the state of the
    collaborators.  That covers every assignment of outcomes and
    latencies to the items of a plan: a stub gives the n-th request the
    n-th reply of any table. *)

Lemma stub_create_tasks (ids : nat -> string) (f : nat -> Agent -> string -> Reply)
  (st : nat -> Z) (items : list WebSearchItem) :
  forall w : StubWorld,
    @create_tasks (stub ids f st) items w
    = (Ok (map (fun x => {| task_item := fst x;
                            task_reply := f (snd x) search_agent (search_input (fst x)) |})
             (combine items (seq (run_count w) (List.length items)))),
       start_events items,
       {| trace_count := trace_count w;
          run_count := run_count w + List.length items;
          post_count := post_count w |}).
Proof.
  induction items as [| i rest IH]; intros [tc rc pc].
  - cbn. now rewrite Nat.add_0_r.
  - cbn [create_tasks]. unfold bind at 1.
    change (@search_begin (stub ids f st) i {| trace_count := tc; run_count := rc; post_count := pc |})
      with (Ok {| task_item := i; task_reply := f rc search_agent (search_input i) |},
            [ERunStart (name search_agent) (search_input i)] ++ [],
            {| trace_count := tc; run_count := S rc; post_count := pc |}).
    cbv iota beta. unfold bind at 1. rewrite IH. cbn [trace_count run_count post_count ret].
    cbn [List.length seq combine map fst snd start_events app].
    rewrite app_nil_r. now replace (S rc + List.length rest) with (rc + S (List.length rest)) by lia.
Qed.

Lemma nth_table (A : Type) (d : A) (l : list A) :
  forall s : nat, map (fun n => nth (n - s) l d) (seq s (List.length l)) = l.
Proof.
  induction l as [| a l IH]; intros s; [reflexivity |].
  cbn [List.length seq map]. rewrite Nat.sub_diag. cbn [nth]. f_equal.
  rewrite <- (IH (S s)) at 2. apply map_ext_in. intros n I. apply in_seq in I.
  now replace (n - s) with (S (n - S s)) by lia.
Qed.

Lemma map_snd_combine_eq (A B C : Type) (g : B -> C) (xs : list A) :
  forall ys : list B, List.length ys = List.length xs ->
    map (fun x => g (snd x)) (combine xs ys) = map g ys.
Proof.
  induction xs as [| x xs IH]; intros [| y ys] L; cbn in *; try discriminate.
  - reflexivity.
  - f_equal. apply IH. now injection L.
Qed.

Lemma every_assignment_dispatched (items : list WebSearchItem) (replies : list Reply) :
  List.length replies = List.length items ->
  exists (C : Collaborators) (w : @World C),
    map task_reply (@dispatched C items w) = replies
    /\ map task_item (@dispatched C items w) = items.
Proof.
  intros L. set (d := {| behaviour := Final VNone; latency := 0 |}).
  exists (stub (fun _ => "") (fun n _ _ => nth (n - 0) replies d) (fun _ => 0%Z)), boot.
  split; [| apply dispatched_items].
  unfold dispatched. rewrite stub_create_tasks. cbn [boot run_count].
  rewrite map_map. cbn [task_reply snd]. rewrite <- L.
  rewrite (map_snd_combine_eq _ _ _ (fun n => nth (n - 0) replies d)).
  - apply nth_table.
  - now rewrite length_seq.
Qed.

(** * Beyond the claims *)

(** ** Agents without function tools *)

Section Toolless.
Context `{Collaborators}.


Lemma search_toolless : toolless search_agent.
Proof. now intros t. Qed.

Lemma writer_toolless : toolless writer_agent.
Proof. now intros t. Qed.

Lemma Runner_finish_toolless (a : Agent) (reply : Reply) (w : World) :
  toolless a ->
  exists r, Runner_finish a reply w = (r, [ERunEnd (name a) (is_ok r)], w).
Proof.
  intros T. unfold Runner_finish, bind, DEFAULT_MAX_TURNS.
  destruct (behaviour reply) as [v | e | t sj hb k]; cbn [converse ret raise].
  - unfold structured. destruct (output_type a) as [[|] |].
    + destruct (validate_WebSearchPlan v); now eexists.
    + destruct (validate_ReportData v); now eexists.
    + now eexists.
  - now eexists.
  - rewrite T. now eexists.
Qed.

Lemma Runner_run_toolless (a : Agent) (i : string) (w : World) :
  toolless a ->
  exists r, Runner_run a i w
            = (r, [ERunStart (name a) i; ERunEnd (name a) (is_ok r)], snd (hosted a i w)).
Proof.
  intros T. unfold Runner_run, bind, Runner_start.
  destruct (hosted a i w) as [reply w1]. cbn [snd].
  destruct (Runner_finish_toolless a reply w1 T) as [r E]. rewrite E.
  exists r. now destruct r.
Qed.

End Toolless.

(** ** The events of the stages *)

Section StageEvents.
Context `{Collaborators}.




Lemma write_report_shape (q : string) (rs : list string) (w : World) :
  exists r tail,
    write_report q rs w
    = (r,
       EPrint "Thinking about report..."
         :: ERunStart (name writer_agent) (writer_input q rs) :: tail,
       snd (hosted writer_agent (writer_input q rs) w))
    /\ posts tail = []
    /\ started writer_agent tail = 0.
Proof.
  unfold write_report, bind, print, emit. fold (writer_input q rs).
  destruct (Runner_run_toolless writer_agent (writer_input q rs) w writer_toolless)
    as [r E].
  rewrite E. destruct r as [res | e]; eexists _, _; (split; [reflexivity |]); now split.
Qed.




(** Every run is of one of three kinds: planning raises, writing
    raises, or a report is written and the mailer decides. *)
Lemma run_cases (q : string) (w w0 : World) (tid : string) :
  gen_trace_id w = (tid, w0) ->
  (exists e ev1 w1,
      plan_searches q w0 = (Raised e, ev1, w1)
      /\ run q w = (Raised e, head_events tid ++ ev1 ++ [ETraceEnd tid], w1))
  \/ (exists p ev1 w1 rs ev2 w2,
         plan_searches q w0 = (Ok (Plan p), ev1, w1)
         /\ perform_searches (Plan p) w1 = (Ok rs, ev2, w2)
         /\ ((exists e ev3 w3,
                 write_report q rs w2 = (Raised e, ev3, w3)
                 /\ run q w
                    = (Raised e,
                       head_events tid ++ ev1
                         ++ EYield "Searches planned, starting to search..." :: ev2
                         ++ EYield "Searches complete, writing report..." :: ev3
                         ++ [ETraceEnd tid],
                       w3))
             \/ (exists d ev3 w3 r ev4 w4,
                    write_report q rs w2 = (Ok (Report d), ev3, w3)
                    /\ send_email (Report d) w3 = (r, ev4, w4)
                    /\ run q w
                       = (r,
                          head_events tid ++ ev1
                            ++ EYield "Searches planned, starting to search..." :: ev2
                            ++ EYield "Searches complete, writing report..." :: ev3
                            ++ EYield "Report written, sending email..." :: ev4
                            ++ (if is_ok r
                                then [EYield "Email sent, research complete";
                                      EYield (markdown_report d)]
                                else [])
                            ++ [ETraceEnd tid],
                          w4)))).
Proof.
  intros G. destruct (plan_searches q w0) as [[r1 ev1] w1] eqn:P.
  destruct r1 as [o | e].
  - destruct (plan_searches_ok _ _ _ _ _ P) as [p ->]. right.
    pose proof (perform_searches_eq p w1) as S. cbv zeta in S.
    eexists p, ev1, w1, _, _, _. split; [reflexivity |]. split; [exact S |].
    destruct (write_report q (successes (as_completed (dispatched (searches p) w1)))
                (after_dispatch (searches p) w1)) as [[r3 ev3] w3] eqn:W.
    destruct r3 as [o | e].
    + destruct (write_report_ok _ _ _ _ _ _ W) as [d ->]. right.
      destruct (send_email (Report d) w3) as [[r4 ev4] w4] eqn:E.
      exists d, ev3, w3, r4, ev4, w4. split; [reflexivity |]. split; [exact E |].
      apply (run_after_written _ _ _ _ _ _ _ _ _ _ _ _ _ _ _ _ G P S W E).
    + left. exists e, ev3, w3. split; [reflexivity |].
      apply (run_writing_failed _ _ _ _ _ _ _ _ _ _ _ _ _ G P S W).
  - left. exists e, ev1, w1. split; [reflexivity |].
    apply (run_planning_failed _ _ _ _ _ _ _ G P).
Qed.

End StageEvents.

(** ** How far a run gets *)

Section RunOutcomes.
Context `{Collaborators}.

Lemma length_filter_repeat (A : Type) (f : A -> bool) (x : A) (n : nat) :
  List.length (filter f (repeat x n)) = if f x then n else 0.
Proof.
  destruct (f x) eqn:E.
  - now rewrite filter_repeat_true, repeat_length.
  - now rewrite filter_repeat_false.
Qed.

(** X1: how far a run gets is decided stage by stage, and shows in the
    number of its chunks.  When planning raises, [run] raises the same
    error after the trace link (one chunk).  Otherwise the searches
    return, and when writing raises, [run] raises the same error after
    "Searches complete" (three chunks).  Otherwise a report is written,
    and when notifying raises, [run] raises the same error after "Report
    written" (four chunks); when notifying returns, [run] returns after
    six chunks, the last being the markdown text of the report that was
    written.  The search stage never ends a run. *)
Theorem run_stops_after_1_3_4_or_6_chunks (q : string) (w : World) :
  let tid := fst (gen_trace_id w) in
  let w0 := snd (gen_trace_id w) in
  let c := chunks (events (run q w)) in
  let r := result (run q w) in
  (exists e ev1 w1,
      plan_searches q w0 = (Raised e, ev1, w1)
      /\ r = Raised e /\ c = [trace_url +++ tid])
  \/ (exists p ev1 w1 rs ev2 w2,
         plan_searches q w0 = (Ok (Plan p), ev1, w1)
         /\ perform_searches (Plan p) w1 = (Ok rs, ev2, w2)
         /\ ((exists e ev3 w3,
                 write_report q rs w2 = (Raised e, ev3, w3)
                 /\ r = Raised e
                 /\ c = [trace_url +++ tid; "Searches planned, starting to search...";
                         "Searches complete, writing report..."])
             \/ (exists d ev3 w3,
                    write_report q rs w2 = (Ok (Report d), ev3, w3)
                    /\ ((exists e ev4 w4,
                            send_email (Report d) w3 = (Raised e, ev4, w4)
                            /\ r = Raised e
                            /\ c = [trace_url +++ tid;
                                    "Searches planned, starting to search...";
                                    "Searches complete, writing report...";
                                    "Report written, sending email..."])
                        \/ (exists ev4 w4,
                               send_email (Report d) w3 = (Ok tt, ev4, w4)
                               /\ r = Ok tt
                               /\ c = [trace_url +++ tid;
                                       "Searches planned, starting to search...";
                                       "Searches complete, writing report...";
                                       "Report written, sending email...";
                                       "Email sent, research complete";
                                       markdown_report d]))))).
Proof.
  cbv zeta. destruct (gen_trace_id w) as [tid w0] eqn:G. cbn [fst snd].
  destruct (run_cases q w w0 tid G)
    as [(e & ev1 & w1 & P & _)
       | (p & ev1 & w1 & rs & ev2 & w2 & P & S
          & [(e & ev3 & w3 & W & _) | (d & ev3 & w3 & r & ev4 & w4 & W & E & _)])].
  - destruct (run_timeline_planning_failed _ _ _ _ _ _ _ G P) as (R & T).
    left. exists e, ev1, w1. split; [exact P |]. split; [exact R |].
    now rewrite chunks_timeline, T.
  - destruct (run_timeline_writing_failed _ _ _ _ _ _ _ _ _ _ _ _ _ G P S W)
      as (R & _ & T).
    right. exists p, ev1, w1, rs, ev2, w2. split; [exact P |]. split; [exact S |].
    left. exists e, ev3, w3. split; [exact W |]. split; [exact R |].
    rewrite chunks_timeline, T, !flat_map_app, through_search_chunks. reflexivity.
  - destruct (run_timeline_after_written _ _ _ _ _ _ _ _ _ _ _ _ _ _ _ _ G P S W E)
      as (R & _ & T).
    right. exists p, ev1, w1, rs, ev2, w2. split; [exact P |]. split; [exact S |].
    right. exists d, ev3, w3. split; [exact W |].
    destruct r as [[] | e].
    + right. exists ev4, w4. split; [exact E |]. split; [exact R |].
      rewrite chunks_timeline, T, !flat_map_app, through_search_chunks. reflexivity.
    + left. exists e, ev4, w4. split; [exact E |]. split; [exact R |].
      rewrite chunks_timeline, T, !flat_map_app, through_search_chunks. reflexivity.
Qed.

(** X2: in every run, returning or raising, every agent run that was
    started is over: for each agent the starts and the ends are equally
    many, so no search unit is left behind when a run stops. *)
Theorem every_started_run_is_over (q : string) (w : World) (a : Agent) :
  started a (events (run q w)) = resolved a (events (run q w)).
Proof.
  destruct (gen_trace_id w) as [tid w0] eqn:G.
  rewrite started_timeline, resolved_timeline.
  destruct (run_cases q w w0 tid G)
    as [(e & ev1 & w1 & P & _)
       | (p & ev1 & w1 & rs & ev2 & w2 & P & S
          & [(e & ev3 & w3 & W & _) | (d & ev3 & w3 & r & ev4 & w4 & W & E & _)])].
  - destruct (run_timeline_planning_failed _ _ _ _ _ _ _ G P) as (_ & T).
    rewrite T. unfold SP, EP.
    cbn [filter is_started is_ended name planner_agent].
    now destruct (String.eqb "PlannerAgent" (name a)).
  - destruct (run_timeline_writing_failed _ _ _ _ _ _ _ _ _ _ _ _ _ G P S W)
      as (_ & _ & T).
    rewrite T. unfold through_search. rewrite !filter_app, !length_app, !length_filter_repeat.
    unfold SP, EP, SS, ES, SW, EW.
    cbn [filter is_started is_ended name planner_agent search_agent writer_agent].
    destruct (String.eqb "PlannerAgent" (name a)), (String.eqb "SearchAgent" (name a)),
      (String.eqb "WriterAgent" (name a)); cbn [List.length]; lia.
  - destruct (run_timeline_after_written _ _ _ _ _ _ _ _ _ _ _ _ _ _ _ _ G P S W E)
      as (_ & _ & T).
    rewrite T. unfold through_search. rewrite !filter_app, !length_app, !length_filter_repeat.
    unfold SP, EP, SS, ES, SW, EW, SE, EE.
    destruct r;
      cbn [filter is_started is_ended is_ok name planner_agent search_agent writer_agent
             email_agent];
      destruct (String.eqb "PlannerAgent" (name a)), (String.eqb "SearchAgent" (name a)),
        (String.eqb "WriterAgent" (name a)), (String.eqb "EmailAgent" (name a));
      cbn [List.length]; lia.
Qed.

End RunOutcomes.

(** ** Failures of the sequential stages, and mail *)

Section StageFailures.
Context `{Collaborators}.



Lemma through_search_no_writer (tid : string) (N : nat) :
  filter (is_started writer_agent) (through_search tid N) = [].
Proof.
  unfold through_search. rewrite !filter_app.
  rewrite !filter_repeat_false by reflexivity. reflexivity.
Qed.





(** X4: when the mailer's run raises, [run] raises the same error after
    the fourth chunk: the report is written, but neither "Email sent"
    nor the report itself is ever yielded. *)
Theorem notify_failure_withholds_report (q : string) (w w0 w1 w2 w3 w4 : World)
  (tid : string) (p : WebSearchPlan) (rs : list string) (d : ReportData) (e : Exn)
  (ev1 ev2 ev3 ev4 : list Event) :
  gen_trace_id w = (tid, w0) ->
  plan_searches q w0 = (Ok (Plan p), ev1, w1) ->
  perform_searches (Plan p) w1 = (Ok rs, ev2, w2) ->
  write_report q rs w2 = (Ok (Report d), ev3, w3) ->
  Runner_run email_agent (markdown_report d) w3 = (Raised e, ev4, w4) ->
  exists ev,
    run q w = (Raised e, ev, w4)
    /\ send_email (Report d) w3 = (Raised e, EPrint "Writing email..." :: ev4, w4)
    /\ chunks ev
       = [trace_url +++ tid; "Searches planned, starting to search...";
          "Searches complete, writing report..."; "Report written, sending email..."].
Proof.
  intros G P S W R.
  assert (E : send_email (Report d) w3 = (Raised e, EPrint "Writing email..." :: ev4, w4)).
  { unfold send_email, bind, print, emit. cbn [getattr_markdown_report ret]. now rewrite R. }
  destruct (run_timeline_after_written _ _ _ _ _ _ _ _ _ _ _ _ _ _ _ _ G P S W E)
    as (Rr & F & T).
  exists (events (run q w)). split; [| split; [exact E |]].
  - rewrite (run_as_triple q w) at 1. now rewrite Rr, F.
  - rewrite chunks_timeline, T, !flat_map_app, through_search_chunks. reflexivity.
Qed.


End StageFailures.

(** ** What reaches the writer and the mail provider *)

Section WriterAndMail.
Context `{Collaborators}.




(** The writer is asked once, with the query and the summaries in the
    order of arrival, in every run that gets past planning. *)
Lemma run_starts_writer (q : string) (w w0 w1 : World) (tid : string)
  (p : WebSearchPlan) (ev1 : list Event) :
  gen_trace_id w = (tid, w0) ->
  plan_searches q w0 = (Ok (Plan p), ev1, w1) ->
  In (ERunStart (name writer_agent)
        (writer_input q (successes (as_completed (dispatched (searches p) w1)))))
     (events (run q w))
  /\ started writer_agent (events (run q w)) = 1.
Proof.
  intros G P. pose proof (perform_searches_eq p w1) as S. cbv zeta in S.
  set (rs := successes (as_completed (dispatched (searches p) w1))) in *.
  destruct (write_report_shape q rs (after_dispatch (searches p) w1))
    as (r3 & tail & W & _ & _).
  destruct r3 as [o | e].
  - destruct (write_report_ok _ _ _ _ _ _ W) as [d ->].
    destruct (send_email (Report d) (snd (hosted writer_agent (writer_input q rs)
                                           (after_dispatch (searches p) w1))))
      as [[r4 ev4] w4] eqn:E.
    pose proof (run_after_written _ _ _ _ _ _ _ _ _ _ _ _ _ _ _ _ G P S W E) as R.
    destruct (run_timeline_after_written _ _ _ _ _ _ _ _ _ _ _ _ _ _ _ _ G P S W E)
      as (_ & _ & T).
    split.
    + rewrite R. unfold events. cbn [fst snd].
      apply in_or_app; right. apply in_or_app; right. right.
      apply in_or_app; right. right. right. now left.
    + rewrite started_timeline, T, !filter_app, through_search_no_writer.
      now destruct r4.
  - pose proof (run_writing_failed _ _ _ _ _ _ _ _ _ _ _ _ _ G P S W) as R.
    destruct (run_timeline_writing_failed _ _ _ _ _ _ _ _ _ _ _ _ _ G P S W)
      as (_ & _ & T).
    split.
    + rewrite R. unfold events. cbn [fst snd].
      apply in_or_app; right. apply in_or_app; right. right.
      apply in_or_app; right. right. right. now left.
    + rewrite started_timeline, T, !filter_app, through_search_no_writer. reflexivity.
Qed.

(** X7: in every run that gets past planning the writer is started
    exactly once, and its request is the query followed by the [repr] of
    the list of the successful summaries in their order of arrival;
    failed searches leave no trace in it. *)
Theorem writer_is_asked_once_with_the_arrived_summaries (q : string) (w w0 w1 : World)
  (tid : string) (p : WebSearchPlan) (ev1 : list Event) :
  gen_trace_id w = (tid, w0) ->
  plan_searches q w0 = (Ok (Plan p), ev1, w1) ->
  In (ERunStart (name writer_agent)
        ("Original query: " +++ q +++ nl +++ "Summarized search results: "
         +++ py_repr (VList (map VStr
               (successes (as_completed (dispatched (searches p) w1)))))))
     (events (run q w))
  /\ started writer_agent (events (run q w)) = 1.
Proof. intros G P. exact (run_starts_writer q w w0 w1 tid p ev1 G P). Qed.

Lemma successes_nil (ts : list Task) :
  failures ts = List.length ts -> successes ts = [].
Proof.
  intros F. pose proof (successes_failures ts) as L.
  destruct (successes ts); [reflexivity | cbn in L; lia].
Qed.

(** X8: when every search fails, and also when the plan is empty, the
    run goes on: the writer is still asked for a report, on the [repr] of
    the empty list. *)
Theorem writer_is_asked_even_when_every_search_failed (q : string) (w w0 w1 : World)
  (tid : string) (p : WebSearchPlan) (ev1 : list Event) :
  gen_trace_id w = (tid, w0) ->
  plan_searches q w0 = (Ok (Plan p), ev1, w1) ->
  failures (dispatched (searches p) w1) = List.length (searches p) ->
  (exists ev2 w2, perform_searches (Plan p) w1 = (Ok [], ev2, w2))
  /\ In (ERunStart (name writer_agent)
           ("Original query: " +++ q +++ nl +++ "Summarized search results: "
            +++ py_repr (VList [])))
        (events (run q w)).
Proof.
  intros G P F.
  assert (N : successes (as_completed (dispatched (searches p) w1)) = []).
  { apply successes_nil.
    rewrite (failures_perm _ _ (as_completed_perm _)), as_completed_length, F.
    symmetry. apply dispatched_length. }
  split.
  - eexists _, _. rewrite perform_searches_eq. cbv zeta. now rewrite N.
  - destruct (run_starts_writer q w w0 w1 tid p ev1 G P) as [I _].
    rewrite N in I. exact I.
Qed.

End WriterAndMail.

(** ** Order of arrival, log lines, single searches *)

Section DispatchDetails.
Context `{Collaborators}.

Lemma arrives_cons (t u : Task) (rest : list Task) :
  arrives_in_order (t :: u :: rest)
  = Nat.leb (latency (task_reply t)) (latency (task_reply u))
    && arrives_in_order (u :: rest).
Proof. reflexivity. Qed.

Lemma arrives_tail (t : Task) (rest : list Task) :
  arrives_in_order (t :: rest) = true -> arrives_in_order rest = true.
Proof.
  destruct rest as [| u rest']; [reflexivity |].
  rewrite arrives_cons. intros O. now apply andb_true_iff in O.
Qed.

Lemma as_completed_in_order (ts : list Task) :
  arrives_in_order ts = true -> as_completed ts = ts.
Proof.
  induction ts as [| t rest IH]; [reflexivity |].
  intros O. cbn [as_completed fold_right]. fold (as_completed rest).
  rewrite (IH (arrives_tail _ _ O)).
  destruct rest as [| u rest']; [reflexivity |].
  rewrite arrives_cons in O. apply andb_true_iff in O as [L _].
  cbn [arrive]. now rewrite L.
Qed.

Lemma arrive_in_order (t : Task) (queue : list Task) :
  arrives_in_order queue = true -> arrives_in_order (arrive t queue) = true.
Proof.
  induction queue as [| u rest IH]; intros O; [reflexivity |].
  cbn [arrive]. destruct (Nat.leb (latency (task_reply t)) (latency (task_reply u))) eqn:L.
  - rewrite arrives_cons. now rewrite L, O.
  - specialize (IH (arrives_tail _ _ O)). apply Nat.leb_gt in L.
    destruct rest as [| v rest'].
    + cbn [arrive]. rewrite arrives_cons. cbn [arrives_in_order].
      rewrite andb_true_r. apply Nat.leb_le. lia.
    + cbn [arrive] in *.
      destruct (Nat.leb (latency (task_reply t)) (latency (task_reply v))) eqn:L'.
      * rewrite arrives_cons, IH, andb_true_r. apply Nat.leb_le. lia.
      * rewrite arrives_cons in O. apply andb_true_iff in O as [Luv _].
        now rewrite arrives_cons, Luv, IH.
Qed.

Lemma as_completed_sorted (ts : list Task) : arrives_in_order (as_completed ts) = true.
Proof.
  induction ts as [| t rest IH]; [reflexivity |].
  cbn [as_completed fold_right]. now apply arrive_in_order.
Qed.

(** X9: when the replies arrive in the order of the plan (each no later
    than the next), [perform_searches] returns the successful summaries
    in the order of the plan. *)
Theorem results_keep_plan_order_when_replies_arrive_in_order (p : WebSearchPlan)
  (w : World) :
  arrives_in_order (dispatched (searches p) w) = true ->
  exists ev w',
    perform_searches (Plan p) w = (Ok (successes (dispatched (searches p) w)), ev, w')
    /\ map task_item (dispatched (searches p) w) = searches p.
Proof.
  intros O. eexists _, _. split; [| apply dispatched_items].
  rewrite perform_searches_eq. cbv zeta. now rewrite (as_completed_in_order _ O).
Qed.

(** X10: the list [perform_searches] returns is in order of arrival: it
    holds the successful summaries of the tasks, rearranged so that each
    reply is no later than the next. *)
Theorem results_are_in_order_of_arrival (p : WebSearchPlan) (w : World) :
  exists order ev w',
    perform_searches (Plan p) w = (Ok (successes order), ev, w')
    /\ Permutation order (dispatched (searches p) w)
    /\ arrives_in_order order = true.
Proof.
  exists (as_completed (dispatched (searches p) w)). eexists _, _.
  split; [apply perform_searches_eq |].
  split; [apply as_completed_perm | apply as_completed_sorted].
Qed.

Lemma printed_app (l1 l2 : list Event) : printed (l1 ++ l2) = printed l1 ++ printed l2.
Proof. apply flat_map_app. Qed.

Lemma printed_starts (items : list WebSearchItem) : printed (start_events items) = [].
Proof. induction items as [| i rest IH]; [reflexivity | exact IH]. Qed.

Lemma failure_lines_loop (total : nat) (pending : list Task) :
  forall n : nat,
    filter is_failure_line (printed (loop_events total n pending))
    = flat_map failure_line pending.
Proof.
  induction pending as [| t rest IH]; intros n; [reflexivity |].
  cbn [loop_events flat_map]. rewrite printed_app, filter_app.
  change (printed (EPrint (progress (n + 1) total) :: loop_events total (n + 1) rest))
    with (progress (n + 1) total :: printed (loop_events total (n + 1) rest)).
  cbn [filter]. change (is_failure_line (progress (n + 1) total)) with false.
  cbv iota. rewrite IH. f_equal.
  unfold resume_events, failure_line. destruct (verdict _) as [s | e]; [reflexivity |].
  cbn [printed flat_map app filter]. unfold is_failure_line. now rewrite prefix_append.
Qed.

Lemma failure_lines_count (ts : list Task) :
  List.length (flat_map failure_line ts) = failures ts.
Proof.
  unfold failures, failed, outcome, failure_line.
  induction ts as [| t rest IH]; [reflexivity |].
  cbn [flat_map filter]. rewrite length_app, IH.
  now destruct (verdict _).
Qed.

(** X11: every failed search is logged once: among the lines
    [perform_searches] prints, those starting with "Search failed for
    term '" are the failure lines of the failed units, in order of
    arrival, each with the unit's query and the text of its error; their
    number is the number of failures. *)
Theorem each_failure_is_logged_once (p : WebSearchPlan) (w : World) :
  let ts := dispatched (searches p) w in
  let lines := filter is_failure_line (printed (events (perform_searches (Plan p) w))) in
  lines = flat_map failure_line (as_completed ts)
  /\ List.length lines = failures ts.
Proof.
  cbv zeta. rewrite perform_searches_eq. unfold events. cbn [fst snd].
  assert (E : filter is_failure_line
                (printed (EPrint "Searching..." :: start_events (searches p)
                            ++ loop_events (List.length (dispatched (searches p) w)) 0
                                 (as_completed (dispatched (searches p) w))
                            ++ [EPrint "Finished searching"]))
              = flat_map failure_line (as_completed (dispatched (searches p) w))).
  { change (EPrint "Searching..." :: ?l) with ([EPrint "Searching..."] ++ l).
    rewrite !printed_app, printed_starts, !filter_app, failure_lines_loop.
    cbn. now rewrite app_nil_r. }
  rewrite E. split; [reflexivity |].
  rewrite failure_lines_count. apply failures_perm, as_completed_perm.
Qed.

(** X12: [search] never raises; when the run of the search agent
    returns, [search] returns the text of its answer and prints
    nothing. *)
Theorem search_returns_the_answer_text (item : WebSearchItem) (w w1 : World)
  (res : RunResult) (ev : list Event) :
  Runner_run search_agent
    ("Search term: " +++ query item +++ nl +++ "Reason for searching: " +++ reason item) w
  = (Ok res, ev, w1) ->
  search item w = (Ok (Some (py_str (final_output res))), ev, w1)
  /\ forall (item' : WebSearchItem) (w' : World),
       exists o ev' w'', search item' w' = (Ok o, ev', w'').
Proof.
  intros R. split.
  - revert R. unfold search, search_begin, Runner_run, search_resume, try_except.
    unfold bind, Runner_start.
    destruct (hosted search_agent _ w) as [reply w'].
    cbn [ret task_reply task_item app].
    destruct (Runner_finish search_agent reply w') as [[r ev'] w''].
    destruct r as [a | e']; [| discriminate].
    intros [= -> <- ->]. cbn [app]. now rewrite !app_nil_r.
  - intros item' w'. unfold search, bind, search_begin, bind, Runner_start.
    destruct (hosted search_agent _ w') as [reply w''].
    cbn [ret]. rewrite search_resume_eq. now eexists _, _, _.
Qed.

End DispatchDetails.

(** ** The further properties at work on the scenario and its variations *)


Lemma notify_failure_withholds_report_witness :
  exists ev w4,
    @run Variants.failing_mailer_world Scenario.the_query boot
    = (Raised Scenario.timeout, ev, w4)
    /\ chunks ev
       = ["View trace: https://platform.openai.com/traces/trace?trace_id=trace_0";
          "Searches planned, starting to search...";
          "Searches complete, writing report..."; "Report written, sending email..."].
Proof.
  destruct (@notify_failure_withholds_report Variants.failing_mailer_world
              Scenario.the_query boot _ _ _ _ _ _ _ _ _ _ _ _ _ _
              eq_refl eq_refl eq_refl eq_refl eq_refl)
    as (ev & E & _ & C).
  exists ev. eexists. split; [exact E | exact C].
Defined.



Lemma writer_is_asked_once_with_the_arrived_summaries_witness :
  started writer_agent (events (@run Scenario.world Scenario.the_query boot)) = 1.
Proof.
  exact (proj2 (@writer_is_asked_once_with_the_arrived_summaries Scenario.world
                  Scenario.the_query boot _ _ _ _ _ eq_refl eq_refl)).
Defined.

Lemma writer_is_asked_even_when_every_search_failed_witness :
  In (ERunStart "WriterAgent"
        ("Original query: Impact of AI on Healthcare" +++ nl
         +++ "Summarized search results: []"))
     (events (@run Variants.all_fail_world Scenario.the_query boot)).
Proof.
  exact (proj2 (@writer_is_asked_even_when_every_search_failed Variants.all_fail_world
                  Scenario.the_query boot _ _ _ _ _ eq_refl eq_refl eq_refl)).
Defined.

Lemma results_keep_plan_order_when_replies_arrive_in_order_witness :
  exists ev w',
    @perform_searches Scenario.world (Plan Variants.short_plan) boot
    = (Ok ["Notes. " +++ search_input (Scenario.item 1);
           "Notes. " +++ search_input (Scenario.item 2)], ev, w').
Proof.
  destruct (@results_keep_plan_order_when_replies_arrive_in_order Scenario.world
              Variants.short_plan boot eq_refl)
    as (ev & w' & E & _).
  exists ev, w'. exact E.
Defined.

Lemma search_returns_the_answer_text_witness :
  exists ev w1,
    @search Scenario.world (Scenario.item 1) boot
    = (Ok (Some ("Notes. " +++ search_input (Scenario.item 1))), ev, w1).
Proof.
  eexists _, _.
  exact (proj1 (@search_returns_the_answer_text Scenario.world (Scenario.item 1) boot
                  _ _ _ eq_refl)).
Defined.

